(** * Drive MCP server and Gemini MCP client: credential lifecycle and
      tool-calling loop

    A shallow embedding of [drive_web_mcp_server.py] (the OAuth2 callback,
    the credential resolution and the two MCP tools) and of
    [GeminiMCPClient.query] in [mcp_client.py].

    The two process-wide dictionaries of the server are finite maps keyed by
    strings; every handler is a computation in a state-and-exception monad
    over them.  Calls that leave the process (Google's token endpoint, the
    userinfo endpoint, the Drive API, the Gemini model, the MCP session) are
    oracles: the server takes a record [External] per handler invocation and
    logs each call in the state, the client threads an abstract world.

    [ParseTools] embeds [GeminiMCPClient._parse_tools] over JSON values, and
    [MCPClient] the base client ([connect_to_server],
    [authenticate_with_mcp_server], [chat_loop], [cleanup]) over a record
    [Runtime] of library calls, with the events the client produces. *)

From stdpp Require Import gmap strings list fin_maps pretty.
From Stdlib Require Import ZArith.

Local Open Scope Z_scope.
Local Open Scope string_scope.

(** ** Python values shared by both programs *)

(** The one-character string written ["\n"] in the source. *)
Definition nl : string := String (Ascii.ascii_of_nat 10) EmptyString.

(** [sep.join(parts)] *)
Definition join (sep : string) (parts : list string) : string :=
  String.concat sep parts.

(** Truth value of a [str]: only the empty string is falsy. *)
Definition truthy_str (s : string) : bool :=
  negb (String.eqb s "").

(** Truth value of a [str | None]. *)
Definition truthy (o : option string) : bool :=
  match o with
  | Some s => truthy_str s
  | None => false
  end.

(** A Python call either returns a value or raises. *)
Inductive Result (E A : Type) : Type :=
| Ok (a : A)
| Raise (e : E).
Arguments Ok {E A} a.
Arguments Raise {E A} e.

(** ** The server: [drive_web_mcp_server.py] *)

Module DriveServer.

(** Exceptions the handlers raise themselves, [TypeError] for a call with
    an argument missing, [RuntimeError] for [get_http_request()] outside a
    request, and [ExternalError] for whatever a call that leaves the
    process raises. *)
Inductive Exception : Type :=
| HTTPException (status_code : Z) (detail : string)
| ValueError (msg : string)
| KeyError (key : string)
| TypeError (msg : string)
| RuntimeError (msg : string)
| ExternalError (msg : string).

(** The dictionary written into [credentials_store] (lines 105-112). *)
Record CredsData : Type := mkCredsData {
  cd_token : string;
  cd_refresh_token : option string;
  cd_token_uri : string;
  cd_client_id : string;
  cd_client_secret : string;
  cd_scopes : list string
}.

(** A [google.oauth2.credentials.Credentials] object, as far as the source
    reads and builds it. *)
Record Credentials : Type := mkCredentials {
  token : string;
  refresh_token : option string;
  token_uri : string;
  client_id : string;
  client_secret : string;
  scopes : list string
}.

(** What [build(name, version, credentials=...)] returns. *)
Record Service : Type := build {
  serviceName : string;
  version : string;
  credentials : Credentials
}.

(** One entry of the [files] list of a Drive listing. *)
Record FileItem : Type := mkFileItem {
  name : string;
  mimeType : string;
  webViewLink : option string
}.

(** The current HTTP request, as far as the handlers read it. *)
Record Request : Type := mkRequest {
  query_params : gmap string string;
  headers : gmap string string
}.

(** Calls that leave the process. *)
Inductive NetCall : Type :=
| FetchToken (code : string)
| UserinfoGet
| TokenRefresh
| FilesList (q : string).

(** The outside world as one handler invocation sees it. *)
Record External : Type := mkExternal {
  (** [str(uuid.uuid4())] *)
  uuid4 : string;
  (** [Flow.from_client_secrets_file(...)] then
      [flow.authorization_url(..., state=state)] *)
  authorization_url : string -> Result Exception string;
  (** [Flow.from_client_secrets_file(...)], [flow.fetch_token(code=code)],
      [flow.credentials] *)
  fetch_token : string -> Result Exception Credentials;
  (** [service.userinfo().get().execute()] then [.get("email")] *)
  userinfo_email : Service -> Result Exception (option string);
  (** [creds.expired] *)
  expired : Credentials -> bool;
  (** [creds.refresh(request)] on a transport request, the credentials
      object after the call; [get_drive_service] never gets to call it, see
      [fastapi_Request] *)
  refresh : Credentials -> Result Exception Credentials;
  (** [service.files().list(q=query, ...).execute()] then the value under
      ["files"], if the key is there *)
  files_list : Service -> string -> Result Exception (option (list FileItem))
}.

(** The module-level state: the two dictionaries, and the log of calls that
    left the process. *)
Record ServerState : Type := mkServerState {
  credentials_store : gmap string CredsData;
  oauth_states : gmap string string;
  network : list NetCall
}.

(** *** The state-and-exception monad of the handlers *)

Definition M (A : Type) : Type :=
  ServerState -> Result Exception A * ServerState.

Definition ret {A} (a : A) : M A := fun st => (Ok a, st).

Definition raise {A} (e : Exception) : M A := fun st => (Raise e, st).

Definition bind {A B} (m : M A) (k : A -> M B) : M B :=
  fun st =>
    match m st with
    | (Ok a, st') => k a st'
    | (Raise e, st') => (Raise e, st')
    end.

Notation "'let*' x ':=' m 'in' k" := (bind m (fun x => k))
  (at level 10, x name, m at level 100, k at level 200).

(** [try: m except Exception as e: handler(e)].  What [m] did to the
    dictionaries before raising stays done. *)
Definition try_except {A} (m : M A) (handler : Exception -> M A) : M A :=
  fun st =>
    match m st with
    | (Ok a, st') => (Ok a, st')
    | (Raise e, st') => handler e st'
    end.

Definition get_state : M ServerState := fun st => (Ok st, st).

(** A call that leaves the process: logged, then its outcome. *)
Definition net_call {A} (c : NetCall) (r : Result Exception A) : M A :=
  fun st =>
    (r, mkServerState (credentials_store st) (oauth_states st)
                      (network st ++ [c])%list).

(** [oauth_states[state] = client_id] *)
Definition oauth_states_set (state cid : string) : M unit :=
  fun st =>
    (Ok tt, mkServerState (credentials_store st)
                          (<[state := cid]> (oauth_states st))
                          (network st)).

(** [oauth_states.pop(state)] *)
Definition oauth_states_pop (state : string) : M string :=
  fun st =>
    match oauth_states st !! state with
    | Some cid =>
        (Ok cid, mkServerState (credentials_store st)
                               (delete state (oauth_states st))
                               (network st))
    | None => (Raise (KeyError state), st)
    end.

(** [credentials_store[client_id] = creds_data] *)
Definition credentials_store_set (cid : string) (d : CredsData) : M unit :=
  fun st =>
    (Ok tt, mkServerState (<[cid := d]> (credentials_store st))
                          (oauth_states st)
                          (network st)).

(** The dictionary literal of lines 105-112. *)
Definition creds_data_of (credentials : Credentials) : CredsData :=
  mkCredsData (token credentials) (refresh_token credentials)
              (token_uri credentials) (client_id credentials)
              (client_secret credentials) (scopes credentials).

(** The constructor call of lines 134-141. *)
Definition Credentials_of (creds_data : CredsData) : Credentials :=
  mkCredentials (cd_token creds_data) (cd_refresh_token creds_data)
                (cd_token_uri creds_data) (cd_client_id creds_data)
                (cd_client_secret creds_data) (cd_scopes creds_data).

(** [creds_data["token"] = t] *)
Definition set_token (creds_data : CredsData) (t : string) : CredsData :=
  mkCredsData t (cd_refresh_token creds_data)
              (cd_token_uri creds_data) (cd_client_id creds_data)
              (cd_client_secret creds_data) (cd_scopes creds_data).

Section Handlers.

(** [str(e)] on an exception object. *)
Variable str : Exception -> string.

(** [get_client_id_from_request] *)
Definition get_client_id_from_request (request : Request) : M string :=
  match query_params request !! "client_id" with
  | Some cid =>
      if truthy_str cid then ret cid
      else raise (HTTPException 400
             "client_id query parameter is required for authorization")
  | None =>
      raise (HTTPException 400
             "client_id query parameter is required for authorization")
  end.

(** [authorize]: the value is the target of the [RedirectResponse]. *)
Definition authorize (ext : External) (request : Request) : M string :=
  let* cid := get_client_id_from_request request in
  let state := uuid4 ext in
  let* _ := oauth_states_set state cid in
  fun st => (authorization_url ext state, st).

(** The [try] block of [oauth2callback] (lines 83-117). *)
Definition oauth2callback_try (ext : External) (code state : string)
  : M string :=
  let* st := get_state in
  if bool_decide (oauth_states st !! state = None) then
    raise (HTTPException 400 "Invalid state parameter")
  else
    let* cid := oauth_states_pop state in
    let* creds := net_call (FetchToken code) (fetch_token ext code) in
    let service := build "oauth2" "v2" creds in
    let* user_id := net_call UserinfoGet (userinfo_email ext service) in
    if negb (truthy user_id) then
      raise (HTTPException 400 "Could not retrieve user email")
    else
      let* _ := credentials_store_set cid (creds_data_of creds) in
      ret ("Authentication successful for user: " +:+ default "" user_id
           +:+ ", You can close this window now.").

(** [oauth2callback]: the [try] block under its [except Exception]. *)
Definition oauth2callback (ext : External) (code state : string)
  : M string :=
  try_except (oauth2callback_try ext code state)
    (fun e => raise (HTTPException 500 ("Authentication error: " +:+ str e))).

(** What [oauth2callback] raises when its [try] block raises the
    [HTTPException] of line 86: line 118 catches it and line 119 wraps it. *)
Definition invalid_state_answer : Result Exception string :=
  Raise (HTTPException 500
           ("Authentication error: "
            +:+ str (HTTPException 400 "Invalid state parameter"))).

(** What the interpreter says when [Request] is called without its
    argument [scope]. *)
Definition missing_scope : string :=
  "Request.__init__() missing 1 required positional argument: 'scope'".

(** [Request()] at line 146.  The name [Request] is bound twice, at line 5
    to the transport of [google.auth] and at line 8 to the request class of
    [fastapi]; the second binding is the one in force, and that class
    cannot be built without a [scope]: the call raises before
    [creds.refresh] is entered. *)
Definition fastapi_Request : M unit := raise (TypeError missing_scope).

(** [get_drive_service].  The credentials of lines 134-141 are built
    without an expiry; [expired ext] stands for what [creds.expired] then
    says, which for [google.auth] is [False]. *)
Definition get_drive_service (ext : External) (cid : string) : M Service :=
  if negb (truthy_str cid) then
    raise (ValueError "No client_id provided")
  else
    let* st := get_state in
    match credentials_store st !! cid with
    | None =>
        raise (ValueError ("No credentials found for client_id: " +:+ cid))
    | Some creds_data =>
        let creds := Credentials_of creds_data in
        if expired ext creds && truthy (refresh_token creds) then
          let* _ := fastapi_Request in
          let* creds' := net_call TokenRefresh (refresh ext creds) in
          let creds_data' := set_token creds_data (token creds') in
          let* _ := credentials_store_set cid creds_data' in
          ret (build "drive" "v3" creds')
        else
          ret (build "drive" "v3" creds)
    end.

(** One line group of the listing (lines 195-197). *)
Definition file_info (item : FileItem) : string :=
  let info := "- " +:+ name item +:+ " (" +:+ mimeType item +:+ ")" in
  match webViewLink item with
  | Some link => info +:+ nl +:+ "  Link: " +:+ link
  | None => info
  end.

(** The tool [search_drive_files] *)
Definition search_drive_files (ext : External) (request : Request)
    (query : string) : M string :=
  try_except
    (let cid := headers request !! "X-Client-ID" in
     if negb (truthy cid) then
       ret "No client_id provided for authentication."
     else
       let* service := get_drive_service ext (default "" cid) in
       let* results :=
         net_call (FilesList query) (files_list ext service query) in
       let items := default [] results in
       match items with
       | [] => ret "No files found matching your query."
       | _ :: _ => ret (join nl ("Files found:" :: map file_info items))
       end)
    (fun e => ret ("Error searching files: " +:+ str e)).

(** The tool [check_authentication_status] *)
Definition check_authentication_status (request : Request) : M string :=
  let cid := headers request !! "X-Client-ID" in
  if negb (truthy cid) then
    ret "No X-Client-ID header provided for authentication check."
  else
    let* st := get_state in
    if bool_decide (is_Some (credentials_store st !! default "" cid)) then
      ret "authenticated"
    else
      ret "not authenticated".

(** The tools the server registers with [@mcp.tool()], with their
    arguments. *)
Inductive ToolCall : Type :=
| SearchDriveFiles (query : string)
| CheckAuthenticationStatus.

Definition call_tool (ext : External) (request : Request) (t : ToolCall)
  : M string :=
  match t with
  | SearchDriveFiles query => search_drive_files ext request query
  | CheckAuthenticationStatus => check_authentication_status request
  end.

(** What [get_http_request()] says when no HTTP request is being served. *)
Definition no_active_request : string := "No active HTTP request found.".

(** [get_http_request()]: the request being served, if there is one. *)
Definition get_http_request (context : option Request) : M Request :=
  match context with
  | Some request => ret request
  | None => raise (RuntimeError no_active_request)
  end.

(** A tool as FastMCP runs it, with [get_http_request()] where the source
    calls it: at line 171 inside the [try] of [search_drive_files], whose
    [except] clause is the one [search_drive_files] above already has, and
    at line 211 of [check_authentication_status], which has no [try]. *)
Definition invoke (ext : External) (context : option Request) (t : ToolCall)
  : M string :=
  match t with
  | SearchDriveFiles query =>
      try_except
        (let* request := get_http_request context in
         search_drive_files ext request query)
        (fun e => ret ("Error searching files: " +:+ str e))
  | CheckAuthenticationStatus =>
      let* request := get_http_request context in
      check_authentication_status request
  end.

End Handlers.

End DriveServer.

(** ** The client: [GeminiMCPClient.query] in [mcp_client.py] *)

Module GeminiMCPClient.

(** [part.function_call]: the tool's name and its arguments. *)
Record FunctionCall : Type := mkFunctionCall {
  fc_name : string;
  fc_args : list (string * string)
}.

(** The [function_response] built at lines 329-336; [fr_content] is
    [result.content]. *)
Record FunctionResponse : Type := mkFunctionResponse {
  fr_name : string;
  fr_content : list string
}.

(** [types.Part] *)
Record Part : Type := mkPart {
  text : option string;
  function_call : option FunctionCall;
  function_response : option FunctionResponse
}.

(** [types.Content] *)
Record Content : Type := mkContent {
  role : string;
  parts : list Part
}.

(** [types.GenerateContentResponse]: the contents of its candidates. *)
Record Response : Type := mkResponse {
  candidates : list Content
}.

(** [mcp.types.Tool], passed through to the model untouched by the loop. *)
Record Tool : Type := mkTool {
  tool_name : string;
  tool_description : string
}.

(** [types.Part.from_text(text=...)] *)
Definition Part_from_text (s : string) : Part :=
  mkPart (Some s) None None.

(** How the [for] loop over the parts of one response ends. *)
Inductive ForExit : Type :=
| ForExhausted (final_text_parts : list string)
| ForBreak (final_text_parts : list string) (contents : list Content)
           (response : Response)
| ForReturn (value : string).

(** How a call of [query] that returns a string ended. *)
Inductive Exit : Type :=
| NoToolCall      (* line 356: the response had no tool call *)
| LoopCondition   (* line 306: no candidates, or no parts *)
| ToolFailed.     (* line 352 *)

(** A finished call of [query]: the string it returns, how it ended and,
    as a ghost field the code does not have, the model responses the
    [while] loop went through, oldest first. *)
Record Run : Type := mkRun {
  returned : string;
  exit : Exit;
  responses : list Response
}.

(** The parts the [while] condition and the [for] loop look at:
    [response.candidates[0].content.parts]. *)
Definition first_parts (response : Response) : list Part :=
  match candidates response with
  | [] => []
  | c :: _ => parts c
  end.

Section Query.

(** What the model and the MCP session are and will answer. *)
Variable World : Type.
(** Python exception objects, [str(e)] and the built-in
    [ConnectionError]. *)
Variable Exn : Type.
Variable str : Exn -> string.
Variable ConnectionError : string -> Exn.
(** [self._query_model(contents, tools)] *)
Variable _query_model :
  list Content -> option (list Tool) -> World -> Result Exn Response * World.
(** [await self.session.call_tool(tool_name, tool_args)], up to
    [result.content] *)
Variable session_call_tool :
  string -> list (string * string) -> World ->
  Result Exn (list string) * World.

(** Whether [self.session] is set. *)
Variable session : bool.
Variable tools : option (list Tool).

(** The [for part in content.parts] loop (lines 311-352). *)
Fixpoint for_parts (contents : list Content) (ps : list Part)
    (final_text_parts : list string) (w : World) : ForExit * World :=
  match ps with
  | [] => (ForExhausted final_text_parts, w)
  | part :: rest =>
      if truthy (text part) then
        for_parts contents rest
                  (final_text_parts ++ [default "" (text part)])%list w
      else
        match function_call part with
        | Some fc =>
            let tool_name := fc_name fc in
            let tool_args := fc_args fc in
            let failed (e : Exn) :=
              ForReturn ("Error executing tool " +:+ tool_name +:+ ": "
                         +:+ str e) in
            if negb session then
              (failed (ConnectionError "Session is not initialized."), w)
            else
              match session_call_tool tool_name tool_args w with
              | (Raise e, w1) => (failed e, w1)
              | (Ok result, w1) =>
                  let function_response_part :=
                    mkPart None None
                           (Some (mkFunctionResponse tool_name result)) in
                  let contents' :=
                    (contents ++ [mkContent "model" [part];
                                  mkContent "user" [function_response_part]])
                      %list in
                  match _query_model contents' tools w1 with
                  | (Raise e, w2) => (failed e, w2)
                  | (Ok response, w2) =>
                      (ForBreak final_text_parts contents' response, w2)
                  end
              end
        | None => for_parts contents rest final_text_parts w
        end
  end.

(** The [while] loop (lines 306-356) and the final [return]; [fuel] bounds
    the number of iterations, the source has no bound.  [seen] is the ghost
    list of the responses of earlier iterations. *)
Fixpoint while_loop (fuel : nat) (contents : list Content)
    (response : Response) (final_text_parts : list string)
    (seen : list Response) (w : World) : option (Run * World) :=
  match fuel with
  | O => None
  | S fuel' =>
      match first_parts response with
      | [] =>
          Some (mkRun (join nl final_text_parts) LoopCondition
                      (seen ++ [response])%list, w)
      | ps =>
          match for_parts contents ps final_text_parts w with
          | (ForExhausted ftp, w') =>
              Some (mkRun (join nl ftp) NoToolCall (seen ++ [response])%list,
                    w')
          | (ForBreak ftp contents' response', w') =>
              while_loop fuel' contents' response' ftp
                         (seen ++ [response])%list w'
          | (ForReturn value, w') =>
              Some (mkRun value ToolFailed (seen ++ [response])%list, w')
          end
      end
  end.

(** [query] with its ghost fields. *)
Definition query_run (fuel : nat) (query : string) (w : World)
  : option (Result Exn Run * World) :=
  if negb session then
    Some (Raise (ConnectionError
                   "Not connected to a server. Call connect_to_server first."),
          w)
  else
    let contents := [mkContent "user" [Part_from_text query]] in
    match _query_model contents tools w with
    | (Raise e, w') => Some (Raise e, w')
    | (Ok response, w') =>
        match while_loop fuel contents response [] [] w' with
        | Some (run, w'') => Some (Ok run, w'')
        | None => None
        end
    end.

(** [GeminiMCPClient.query]: [None] when [fuel] iterations were not
    enough. *)
Definition query (fuel : nat) (q : string) (w : World)
  : option (Result Exn string * World) :=
  match query_run fuel q w with
  | Some (Ok run, w') => Some (Ok (returned run), w')
  | Some (Raise e, w') => Some (Raise e, w')
  | None => None
  end.

End Query.

(** *** What one response adds to [final_text_parts] *)

(** The texts of the parts of a response up to its first part that is a
    function call and has no text. *)
Fixpoint accumulated_texts (ps : list Part) : list string :=
  match ps with
  | [] => []
  | part :: rest =>
      if truthy (text part) then
        default "" (text part) :: accumulated_texts rest
      else
        match function_call part with
        | Some _ => []
        | None => accumulated_texts rest
        end
  end.

(** The texts of all the parts of a response that carry one. *)
Fixpoint texts (ps : list Part) : list string :=
  match ps with
  | [] => []
  | part :: rest =>
      if truthy (text part) then default "" (text part) :: texts rest
      else texts rest
  end.

(** A part the loop takes as a function call: it has no text and it has a
    call. *)
Definition dispatched (part : Part) : bool :=
  negb (truthy (text part))
  && match function_call part with
     | Some _ => true
     | None => false
     end.

(** The parts of a response that come before its first dispatched
    function call; all of them when it has none. *)
Fixpoint before_first_call (ps : list Part) : list Part :=
  match ps with
  | [] => []
  | part :: rest =>
      if dispatched part then [] else part :: before_first_call rest
  end.

(** A part that is a function call and nothing else. *)
Definition only_function_call (part : Part) : Prop :=
  truthy (text part) = false /\ function_call part <> None.

(** Text fragments put one after the other with nothing in between. *)
Definition concatenation (fragments : list string) : string :=
  String.concat "" fragments.

End GeminiMCPClient.

(** ** Concrete worlds used to run the two programs *)

Module Examples.

Import DriveServer.

(** A record as the callback stores it when Google hands out a refresh
    token, and one without. *)
Definition record_with_refresh : CredsData :=
  mkCredsData "old-access" (Some "refresh-1") "https://oauth2.example/token"
              "app-id" "app-secret" ["openid"].

Definition record_without_refresh : CredsData :=
  mkCredsData "old-access" None "https://oauth2.example/token"
              "app-id" "app-secret" ["openid"].

(** Google answers every call; every stored credential has expired and a
    refresh yields the access token ["new-access"] and no new refresh
    token. *)
Definition google_up : External :=
  mkExternal
    "state-1"
    (fun state => Ok ("https://accounts.example/auth?state=" +:+ state))
    (fun code =>
       Ok (mkCredentials "access-1" (Some "refresh-1")
                         "https://oauth2.example/token"
                         "app-id" "app-secret" ["openid"]))
    (fun service => Ok (Some "alice@example.com"))
    (fun creds => true)
    (fun creds =>
       Ok (mkCredentials "new-access" (refresh_token creds) (token_uri creds)
                         (client_id creds) (client_secret creds)
                         (scopes creds)))
    (fun service q => Ok (Some [])).

(** The token endpoint refuses the code. *)
Definition google_down : External :=
  mkExternal
    "state-1"
    (fun state => Ok ("https://accounts.example/auth?state=" +:+ state))
    (fun code => Raise (ExternalError "invalid_grant"))
    (fun service => Raise (ExternalError "unreachable"))
    (fun creds => true)
    (fun creds => Raise (ExternalError "invalid_grant"))
    (fun service q => Raise (ExternalError "unreachable")).

(** [str(e)]: Starlette prints an [HTTPException] as its status code, a
    colon and its detail; [KeyError] prints its key quoted. *)
Definition python_str (e : Exception) : string :=
  match e with
  | HTTPException status_code detail => pretty status_code +:+ ": " +:+ detail
  | ValueError msg => msg
  | KeyError key => "'" +:+ key +:+ "'"
  | TypeError msg => msg
  | RuntimeError msg => msg
  | ExternalError msg => msg
  end.

(** As [google_up], with two files matching every query and credentials
    that have not expired. *)
Definition google_with_files : External :=
  mkExternal
    (uuid4 google_up) (authorization_url google_up) (fetch_token google_up)
    (userinfo_email google_up)
    (fun creds => false)
    (refresh google_up)
    (fun service q =>
       Ok (Some [mkFileItem "report.pdf" "application/pdf"
                            (Some "https://drive.example/1");
                 mkFileItem "notes" "text/plain" None])).

(** As [google_up], with [creds.expired] as [google.auth] computes it
    for credentials built without an expiry: never expired. *)
Definition google_no_expiry : External :=
  mkExternal
    (uuid4 google_up) (authorization_url google_up) (fetch_token google_up)
    (userinfo_email google_up)
    (fun creds => false)
    (refresh google_up)
    (files_list google_up).

Definition empty_state : ServerState := mkServerState ∅ ∅ [].

(** The server after [/authorize?client_id=alice]. *)
Definition alice_pending : ServerState :=
  mkServerState ∅ {[ "state-1" := "alice" ]} [].

(** Alice holds a record with a refresh token, Bob one without. *)
Definition two_clients : ServerState :=
  mkServerState
    {[ "alice" := record_with_refresh; "bob" := record_without_refresh ]}
    ∅ [].

Definition request_of (cid : string) : Request :=
  mkRequest ∅ {[ "X-Client-ID" := cid ]}.

Definition request_without_header : Request := mkRequest ∅ ∅.

Definition authorize_request (cid : string) : Request :=
  mkRequest {[ "client_id" := cid ]} ∅.

(** *** A model and a session for the client *)

Import GeminiMCPClient.

Definition call_search : Part :=
  mkPart None
         (Some (mkFunctionCall "search_drive_files"
                               [("query", "name contains 'report'")]))
         None.

Definition answer (ps : list Part) : Response :=
  mkResponse [mkContent "model" ps].

(** A model that plays a script: the history has one turn at first and two
    more after every tool call, so its length tells the turn. *)
Definition scripted_model (script : list Response)
    (contents : list Content) (tools : option (list Tool)) (w : unit)
  : Result string Response * unit :=
  (Ok (nth (Nat.div2 (length contents)) script (mkResponse [])), w).

(** A session whose tools find nothing. *)
Definition session_finds_nothing (name : string)
    (args : list (string * string)) (w : unit)
  : Result string (list string) * unit :=
  (Ok ["No files found matching your query."], w).

(** The model announces the search next to its call, then answers. *)
Definition chatty_script : list Response :=
  [answer [Part_from_text "Let me look."; call_search];
   answer [Part_from_text "You have no reports."]].

(** The model speaks before and after its call, then answers. *)
Definition interrupted_script : list Response :=
  [answer [Part_from_text "Let me look."; call_search;
           Part_from_text "One moment."];
   answer [Part_from_text "You have no reports."]].

(** The model calls the tool without a word, then answers. *)
Definition silent_script : list Response :=
  [answer [call_search];
   answer [Part_from_text "You have no reports."]].

(** [query] against a scripted model, exceptions being their messages. *)
Definition scripted_query_run (script : list Response) (fuel : nat)
  : option (Result string Run * unit) :=
  query_run unit string (fun msg => msg) (fun msg => msg)
            (scripted_model script) session_finds_nothing true None
            fuel "List my reports" tt.

End Examples.

(** ** The tool declarations sent to the model: [GeminiMCPClient._parse_tools] *)

Module ParseTools.

#[local] Set Warnings "-register-all".

(** JSON values as Python holds them; an object keeps its members in
    insertion order. *)
Inductive JSON : Type :=
| JNull
| JBool (b : bool)
| JNumber (literal : string)
| JString (s : string)
| JArray (items : list JSON)
| JObject (members : list (string * JSON)).

(** [key in d] *)
Definition dict_in (key : string) (d : list (string * JSON)) : bool :=
  bool_decide (key ∈ map fst d).

(** [d.get(key)] *)
Fixpoint dict_get (key : string) (d : list (string * JSON)) : option JSON :=
  match d with
  | [] => None
  | (k, v) :: rest => if String.eqb k key then Some v else dict_get key rest
  end.

(** [d[key] = value]: in place when the key is there, at the end when it
    is not. *)
Fixpoint dict_set (key : string) (value : JSON) (d : list (string * JSON))
  : list (string * JSON) :=
  match d with
  | [] => [(key, value)]
  | (k, v) :: rest =>
      if String.eqb k key then (k, value) :: rest
      else (k, v) :: dict_set key value rest
  end.

(** [mcp.types.Tool] *)
Record Tool : Type := mkTool {
  name : string;
  description : option string;
  inputSchema : list (string * JSON)
}.

(** The arguments [types.FunctionDeclaration] is built from. *)
Record FunctionDeclaration : Type := mkFunctionDeclaration {
  fd_name : string;
  fd_description : option string;
  fd_parameters : list (string * JSON)
}.

(** [AttributeError]: the object and the attribute it does not have. *)
Inductive Exception : Type :=
| AttributeError (object : JSON) (attribute : string).

Section Parse.

(** [str.upper] *)
Variable upper : string -> string.

(** The dictionary stored for one property (lines 271-277). *)
Definition property_declaration (prop_details : JSON)
  : Result Exception JSON :=
  let prop_details_dict :=
    match prop_details with
    | JObject members => members
    | _ => []
    end in
  match default (JString "STRING") (dict_get "type" prop_details_dict) with
  | JString type =>
      Ok (JObject
            [("type", JString (upper type));
             ("description",
              default (JString "") (dict_get "description" prop_details_dict))])
  | other => Raise (AttributeError other "upper")
  end.

(** A dictionary entry whose value holds a [type] string and a
    [description], and nothing else. *)
Definition flat (entry : string * JSON) : Prop :=
  exists type description,
    snd entry = JObject [("type", JString (upper type));
                         ("description", description)].

(** The loop over [input_schema["properties"].items()] (lines 270-277). *)
Fixpoint parse_properties (items : list (string * JSON))
    (properties : list (string * JSON))
  : Result Exception (list (string * JSON)) :=
  match items with
  | [] => Ok properties
  | (prop_name, prop_details) :: rest =>
      match property_declaration prop_details with
      | Ok declared =>
          parse_properties rest (dict_set prop_name declared properties)
      | Raise e => Raise e
      end
  end.

(** The body of the loop over the tools (lines 265-286). *)
Definition parse_tool (tool : Tool) : Result Exception FunctionDeclaration :=
  let input_schema := inputSchema tool in
  let truthy_schema :=
    match input_schema with
    | [] => false
    | _ :: _ => true
    end in
  let properties :=
    if truthy_schema && dict_in "properties" input_schema then
      match dict_get "properties" input_schema with
      | Some (JObject items) => parse_properties items []
      | Some other => Raise (AttributeError other "items")
      | None => Ok []
      end
    else Ok [] in
  match properties with
  | Raise e => Raise e
  | Ok properties =>
      let parameters :=
        [("type", JString "OBJECT"); ("properties", JObject properties)] in
      let parameters :=
        if truthy_schema && dict_in "required" input_schema then
          dict_set "required"
                   (default JNull (dict_get "required" input_schema))
                   parameters
        else parameters in
      Ok (mkFunctionDeclaration (name tool) (description tool) parameters)
  end.

(** The loop over the tools, stopping at the first exception. *)
Fixpoint parse_each (tools : list Tool)
  : Result Exception (list FunctionDeclaration) :=
  match tools with
  | [] => Ok []
  | tool :: rest =>
      match parse_tool tool with
      | Raise e => Raise e
      | Ok declaration =>
          match parse_each rest with
          | Raise e => Raise e
          | Ok declarations => Ok (declaration :: declarations)
          end
      end
  end.

(** [GeminiMCPClient._parse_tools] *)
Definition _parse_tools (tools : option (list Tool))
  : Result Exception (list FunctionDeclaration) :=
  match tools with
  | None => Ok []
  | Some [] => Ok []
  | Some tools => parse_each tools
  end.

End Parse.

(** The keys of a dictionary, in order. *)
Definition keys (d : list (string * JSON)) : list string := map fst d.

(** Upper case of the ASCII letters, the other bytes as they are. *)
Fixpoint ascii_upper (s : string) : string :=
  match s with
  | EmptyString => EmptyString
  | String c rest =>
      let n := Ascii.nat_of_ascii c in
      String (if ((97 <=? n) && (n <=? 122))%nat
              then Ascii.ascii_of_nat (n - 32) else c)
             (ascii_upper rest)
  end.

(** The schema FastMCP derives for [search_drive_files]. *)
Definition search_drive_files_tool : Tool :=
  mkTool "search_drive_files" (Some "Search for files in Google Drive")
    [("properties",
      JObject [("query", JObject [("title", JString "Query");
                                  ("type", JString "string")])]);
     ("required", JArray [JString "query"]);
     ("title", JString "search_drive_filesArguments");
     ("type", JString "object")].

(** The schema of a tool without arguments. *)
Definition check_authentication_status_tool : Tool :=
  mkTool "check_authentication_status" (Some "Check if a user is authenticated")
    [("properties", JObject []);
     ("title", JString "check_authentication_statusArguments");
     ("type", JString "object")].

(** A tool whose argument has a nested schema, and one whose argument
    gives its type as a list. *)
Definition nested_tool : Tool :=
  mkTool "move" None
    [("properties",
      JObject [("target",
                JObject [("type", JString "object");
                         ("properties",
                          JObject [("folder", JObject [("type", JString "string")])]);
                         ("description", JString "where to")]);
               ("dry_run", JBool true)])].

Definition union_typed_tool : Tool :=
  mkTool "rename" None
    [("properties",
      JObject [("name", JObject [("type", JArray [JString "string";
                                                  JString "null"])])])].

End ParseTools.

(** ** The base client: [MCPClient] in [mcp_client.py] *)

Module MCPClient.

(** Exceptions raised by the client itself, and [LibraryError] for what a
    library call raises, with its [str()]. *)
Inductive Exception : Type :=
| ValueError (msg : string)
| IndexError (msg : string)
| AttributeError (msg : string)
| LibraryError (msg : string).

(** [str(e)] *)
Definition str (e : Exception) : string :=
  match e with
  | ValueError msg => msg
  | IndexError msg => msg
  | AttributeError msg => msg
  | LibraryError msg => msg
  end.

(** What the client does that can be seen from outside, in order. *)
Inductive Event : Type :=
| Print (line : string)
| PrintTools (tools : list ParseTools.Tool)
| Sleep (seconds : Z)
| Input (prompt : string)
| SseClient (url : string) (headers : list (string * string))
| StdioClient (command : string) (args : list string)
| ClientSession
| Initialize
| ListTools
| CallTool (name : string) (args : list (string * string))
| Query (query : string) (tools : list ParseTools.Tool)
| Aclose.

(** The fields of the client object. *)
Record Self : Type := mkSelf {
  session : bool;
  client_id : string;
  server_url : option string
}.

(** [MCPClient.__init__]: [uuid4] is [str(uuid.uuid4())]. *)
Definition __init__ (client_id : option string) (uuid4 : string) : Self :=
  mkSelf false (if truthy client_id then default "" client_id else uuid4) None.

(** [s.endswith(suffix)] *)
Definition endswith (s suffix : string) : bool :=
  let n := String.length s in
  let m := String.length suffix in
  (m <=? n)%nat && String.eqb (String.substring (n - m) m s) suffix.

(** [f"{value}"] for a [str | None]. *)
Definition format_optional (value : option string) : string :=
  default "None" value.

Section Client.

Variable World : Type.

(** The libraries and the world behind them. *)
Record Runtime : Type := mkRuntime {
  (** [urlparse(string)]: the scheme and the network location *)
  urlparse : string -> Result Exception (string * string);
  (** [quote_plus] *)
  quote_plus : string -> string;
  (** [str.lower] *)
  lower : string -> string;
  (** entering [sse_client(url, headers=headers)] *)
  sse_client :
    string -> list (string * string) -> World -> Result Exception unit * World;
  (** entering [stdio_client(StdioServerParameters(command, args, env=None))] *)
  stdio_client :
    string -> list string -> World -> Result Exception unit * World;
  (** entering [ClientSession(self.stdio, self.write)] *)
  client_session : World -> Result Exception unit * World;
  (** [self.session.initialize()] *)
  initialize : World -> Result Exception unit * World;
  (** [self.session.list_tools()], up to [.tools] *)
  list_tools : World -> Result Exception (list ParseTools.Tool) * World;
  (** [self.session.call_tool(name, args)], up to the texts of [.content] *)
  call_tool :
    string -> list (string * string) -> World ->
    Result Exception (list string) * World;
  (** [input(prompt)] *)
  input : string -> World -> Result Exception string * World;
  (** [self.exit_stack.aclose()] *)
  aclose : World -> Result Exception unit * World
}.

(** The running client: its object, the world, and what it did so far. *)
Record Process : Type := mkProcess {
  self : Self;
  world : World;
  out : list Event
}.

(** A method either runs out of [fuel] ([None]), returns or raises. *)
Definition M (A : Type) : Type :=
  Process -> option (Result Exception A * Process).

Definition ret {A} (a : A) : M A := fun p => Some (Ok a, p).

Definition raise {A} (e : Exception) : M A := fun p => Some (Raise e, p).

Definition diverge {A} : M A := fun p => None.

Definition bind {A B} (m : M A) (k : A -> M B) : M B :=
  fun p =>
    match m p with
    | Some (Ok a, p') => k a p'
    | Some (Raise e, p') => Some (Raise e, p')
    | None => None
    end.

Notation "'do' x '<-' m ';' k" := (bind m (fun x => k))
  (at level 10, x name, m at level 100, k at level 200).

Notation "m ';;' k" := (bind m (fun _ => k))
  (at level 100, k at level 200, right associativity).

(** [try: m except Exception as e: handler(e)] *)
Definition try_except {A} (m : M A) (handler : Exception -> M A) : M A :=
  fun p =>
    match m p with
    | Some (Ok a, p') => Some (Ok a, p')
    | Some (Raise e, p') => handler e p'
    | None => None
    end.

Definition emit (ev : Event) : M unit :=
  fun p => Some (Ok tt, mkProcess (self p) (world p) (out p ++ [ev])%list).

(** [print(line)] *)
Definition print (line : string) : M unit := emit (Print line).

(** A call into a library: the event, then its outcome. *)
Definition call {A} (ev : Event) (f : World -> Result Exception A * World)
  : M A :=
  fun p =>
    let (r, w) := f (world p) in
    Some (r, mkProcess (self p) w (out p ++ [ev])%list).

Definition get_self : M Self := fun p => Some (Ok (self p), p).

Definition set_self (s : Self) : M unit :=
  fun p => Some (Ok tt, mkProcess s (world p) (out p)).

Variable rt : Runtime.

(** [_is_url] *)
Definition _is_url (string : string) : bool :=
  match urlparse rt string with
  | Ok (scheme, netloc) => truthy_str scheme && truthy_str netloc
  | Raise _ => false
  end.

(** The loop that prints the tools (lines 96-98). *)
Fixpoint print_tools (tools : list ParseTools.Tool) : M unit :=
  match tools with
  | [] => ret tt
  | tool :: rest =>
      print ("Tool: " +:+ ParseTools.name tool) ;;
      print ("Description: "
             +:+ format_optional (ParseTools.description tool)) ;;
      print_tools rest
  end.

(** [MCPClient.connect_to_server] *)
Definition connect_to_server (server_path : string) : M unit :=
  let is_python := endswith server_path ".py" in
  let is_js := endswith server_path ".js" in
  let is_web := _is_url server_path in
  if negb (is_python || is_js || is_web) then
    raise (ValueError "Server must be a .py file, .js file, or web URL")
  else
    (if is_web then
       do s <- get_self;
       set_self (mkSelf (session s) (client_id s) (Some server_path)) ;;
       let headers :=
         if truthy_str (client_id s) then [("X-Client-ID", client_id s)]
         else [] in
       let sse_url := server_path +:+ "/sse" in
       call (SseClient sse_url headers) (sse_client rt sse_url headers)
     else
       let command := if is_python then "python" else "node" in
       call (StdioClient command [server_path])
            (stdio_client rt command [server_path])) ;;
    call ClientSession (client_session rt) ;;
    do s <- get_self;
    set_self (mkSelf true (client_id s) (server_url s)) ;;
    call Initialize (initialize rt) ;;
    do tools <- call ListTools (list_tools rt);
    print_tools tools.

(** [result.content[0].text] *)
Definition first_text (content : list string) : M string :=
  match content with
  | [] => raise (IndexError "list index out of range")
  | text :: _ => ret text
  end.

(** [await self.session.call_tool("check_authentication_status", {})] and
    the text of its first content. *)
Definition check_status : M string :=
  do content <- call (CallTool "check_authentication_status" [])
                     (call_tool rt "check_authentication_status" []);
  first_text content.

(** The [while True] of lines 123-131; [fuel] bounds the number of
    polls, the source has no bound. *)
Fixpoint wait_until_authenticated (fuel : nat) : M unit :=
  match fuel with
  | O => diverge
  | S fuel' =>
      emit (Sleep 5) ;;
      do answer <- check_status;
      if String.eqb answer "authenticated" then
        print "Authentication successful!"
      else
        print "Waiting for authentication to complete..." ;;
        wait_until_authenticated fuel'
  end.

(** [MCPClient.authenticate_with_mcp_server] *)
Definition authenticate_with_mcp_server (fuel : nat) : M unit :=
  do s <- get_self;
  if session s then
    do answer <- check_status;
    if String.eqb answer "authenticated" then
      print "Already authenticated with Google Drive."
    else
      print "Authentication needed with Google Drive." ;;
      let auth_url :=
        format_optional (server_url s) +:+ "/authorize?client_id="
        +:+ quote_plus rt (client_id s) in
      print "Please complete the Google authentication process." ;;
      print ("Open the following URL in your browser to authenticate: "
             +:+ auth_url) ;;
      wait_until_authenticated fuel
  else
    print "Cannot authenticate: Not connected to server.".

(** [await self.session.list_tools()], [self.session] being [None] when
    the client is not connected. *)
Definition session_list_tools : M (list ParseTools.Tool) :=
  do s <- get_self;
  if session s then call ListTools (list_tools rt)
  else raise (AttributeError
                "'NoneType' object has no attribute 'list_tools'").

(** [self.query], the method of the subclass: [None] when it does not
    return. *)
Variable self_query :
  string -> list ParseTools.Tool -> World ->
  option (Result Exception string * World).

Definition call_query (query : string) (tools : list ParseTools.Tool)
  : M string :=
  fun p =>
    match self_query query tools (world p) with
    | Some (r, w) =>
        Some (r, mkProcess (self p) w (out p ++ [Query query tools])%list)
    | None => None
    end.

(** The [while True] of [chat_loop] (lines 148-182); [fuel] bounds the
    number of lines read and the polls of a login. *)
Fixpoint chat_loop_while (fuel : nat) : M unit :=
  match fuel with
  | O => diverge
  | S fuel' =>
      print "" ;;
      do query <- call (Input "Query: ") (input rt "Query: ");
      if String.eqb (lower rt query) "help" then
        print "Available commands:" ;;
        print "quit or exit: Exit the chat" ;;
        print "login: Authenticate with the MCP server" ;;
        print "tools: List available tools" ;;
        chat_loop_while fuel'
      else if String.eqb (lower rt query) "quit"
              || String.eqb (lower rt query) "exit" then
        ret tt
      else if String.eqb (lower rt query) "login" then
        authenticate_with_mcp_server fuel' ;;
        chat_loop_while fuel'
      else if String.eqb (lower rt query) "tools" then
        do available_tools <- session_list_tools;
        emit (PrintTools available_tools) ;;
        chat_loop_while fuel'
      else
        try_except
          (do available_tools <- session_list_tools;
           do response <- call_query query available_tools;
           print response)
          (fun e => print ("Error: " +:+ str e)) ;;
        chat_loop_while fuel'
  end.

(** [MCPClient.chat_loop] *)
Definition chat_loop (fuel : nat) : M unit :=
  print (nl +:+ "MCP Client Started!") ;;
  print "Type your queries or 'help' to know available commands." ;;
  do s <- get_self;
  print ("Using client ID: " +:+ client_id s) ;;
  authenticate_with_mcp_server fuel ;;
  chat_loop_while fuel.

(** [MCPClient.cleanup]: an [AsyncExitStack] is always truthy. *)
Definition cleanup : M unit := call Aclose (aclose rt).

End Client.

End MCPClient.

(** ** A runtime for the base client *)

Module ClientExamples.

Import MCPClient.

(** [urlparse] on the strings used here: an [http://] address has a
    scheme and a network location, anything else has neither. *)
Definition urlparse_http (s : string)
  : Result Exception (string * string) :=
  if String.prefix "http://" s then
    Ok ("http", String.substring 7 (String.length s - 7) s)
  else Ok ("", "").

(** The world counts the status checks made so far.  The server answers
    the check number [n] with [answers n]; [handshake] and [listing] are
    what [initialize] and [list_tools] do; every [input] reads [line]. *)
Definition runtime (answers : nat -> list string)
    (handshake : Result Exception unit)
    (listing : Result Exception (list ParseTools.Tool))
    (line : string) : Runtime nat :=
  mkRuntime nat
    urlparse_http
    (fun s => s)
    (fun s => s)
    (fun url headers w => (Ok tt, w))
    (fun command args w => (Ok tt, w))
    (fun w => (Ok tt, w))
    (fun w => (handshake, w))
    (fun w => (listing, w))
    (fun name args w => (Ok (answers w), S w))
    (fun prompt w => (Ok line, w))
    (fun w => (Ok tt, w)).

Definition never_authenticated (n : nat) : list string :=
  ["not authenticated"].


Definition both_tools : list ParseTools.Tool :=
  [ParseTools.search_drive_files_tool;
   ParseTools.check_authentication_status_tool].

(** A client just made, with the identifier ["client-1"]. *)
Definition fresh : Process nat :=
  mkProcess nat (__init__ (Some "client-1") "uuid-1") 0%nat [].

(** The same client once connected. *)
Definition connected : Process nat :=
  mkProcess nat (mkSelf true "client-1" (Some "http://localhost:8081")) 0%nat [].

(** A subclass whose [query] always fails, and one that echoes. *)
Definition failing_query (q : string) (tools : list ParseTools.Tool)
    (w : nat) : option (Result Exception string * nat) :=
  Some (Raise (LibraryError "model unavailable"), w).

End ClientExamples.

(** ** The authorization callback *)

Section Callback.

Import DriveServer.

Variable str : Exception -> string.

Lemma oauth2callback_try_absent ext code state st :
  oauth_states st !! state = None ->
  oauth2callback_try ext code state st
  = (Raise (HTTPException 400 "Invalid state parameter"), st).
Proof.
  intros Habs. unfold oauth2callback_try, bind, get_state.
  rewrite bool_decide_eq_true_2 by exact Habs. reflexivity.
Qed.

Lemma oauth2callback_absent ext code state st :
  oauth_states st !! state = None ->
  oauth2callback str ext code state st = (invalid_state_answer str, st).
Proof.
  intros Habs. unfold oauth2callback, try_except.
  rewrite oauth2callback_try_absent by exact Habs. reflexivity.
Qed.

(** The [try] block on a [state] that is in [oauth_states], unfolded up to
    the outcome of the two upstream calls. *)
Lemma oauth2callback_try_present ext code state cid st :
  oauth_states st !! state = Some cid ->
  let popped := mkServerState (credentials_store st)
                              (delete state (oauth_states st))
                              (network st ++ [FetchToken code]) in
  oauth2callback_try ext code state st =
  match fetch_token ext code with
  | Raise e => (Raise e, popped)
  | Ok creds =>
      let asked := mkServerState (credentials_store st)
                                 (delete state (oauth_states st))
                                 (network st ++ [FetchToken code]
                                             ++ [UserinfoGet]) in
      match userinfo_email ext (build "oauth2" "v2" creds) with
      | Raise e => (Raise e, asked)
      | Ok user_id =>
          if truthy user_id then
            (Ok ("Authentication successful for user: " +:+ default "" user_id
                 +:+ ", You can close this window now."),
             mkServerState (<[cid := creds_data_of creds]> (credentials_store st))
                           (delete state (oauth_states st))
                           (network st ++ [FetchToken code] ++ [UserinfoGet]))
          else (Raise (HTTPException 400 "Could not retrieve user email"), asked)
      end
  end.
Proof.
  intros Hin. unfold oauth2callback_try, bind, get_state, oauth_states_pop,
    net_call, credentials_store_set, ret, raise.
  rewrite bool_decide_eq_false_2 by congruence.
  rewrite Hin. cbn.
  destruct (fetch_token ext code) as [creds|e]; [|reflexivity].
  cbn. rewrite <- app_assoc.
  destruct (userinfo_email ext _) as [user_id|e]; [|reflexivity].
  destruct (truthy user_id); reflexivity.
Qed.

(** Whatever a callback answers, its [state] is not in [oauth_states]
    afterwards. *)
Lemma oauth2callback_state_gone ext code state st :
  oauth_states (snd (oauth2callback str ext code state st)) !! state = None.
Proof.
  destruct (oauth_states st !! state) as [cid|] eqn:Hin.
  - unfold oauth2callback, try_except.
    rewrite (oauth2callback_try_present _ _ _ _ _ Hin). cbn.
    destruct (fetch_token ext code) as [creds|e]; cbn;
      [|apply lookup_delete_eq].
    destruct (userinfo_email ext _) as [user_id|e]; cbn;
      [|apply lookup_delete_eq].
    destruct (truthy user_id); cbn; apply lookup_delete_eq.
  - rewrite oauth2callback_absent by exact Hin. exact Hin.
Qed.

(** A callback that raises leaves [credentials_store] as it was. *)
Lemma oauth2callback_failure_keeps_store ext code state st e :
  fst (oauth2callback str ext code state st) = Raise e ->
  credentials_store (snd (oauth2callback str ext code state st))
  = credentials_store st.
Proof.
  destruct (oauth_states st !! state) as [cid|] eqn:Hin.
  - unfold oauth2callback, try_except.
    rewrite (oauth2callback_try_present _ _ _ _ _ Hin). cbn.
    destruct (fetch_token ext code) as [creds|e1]; cbn; [|reflexivity].
    destruct (userinfo_email ext _) as [user_id|e1]; cbn; [|reflexivity].
    destruct (truthy user_id); cbn; [discriminate|reflexivity].
  - rewrite oauth2callback_absent by exact Hin. reflexivity.
Qed.

(** A callback touches no entry of [credentials_store] but the one of the
    client its [state] was issued to. *)
Lemma oauth2callback_other_clients ext code state cid st other :
  oauth_states st !! state = Some cid ->
  cid <> other ->
  credentials_store (snd (oauth2callback str ext code state st)) !! other
  = credentials_store st !! other.
Proof.
  intros Hin Hne. unfold oauth2callback, try_except.
  rewrite (oauth2callback_try_present _ _ _ _ _ Hin). cbn.
  destruct (fetch_token ext code) as [creds|e1]; cbn; [|reflexivity].
  destruct (userinfo_email ext _) as [user_id|e1]; cbn; [|reflexivity].
  destruct (truthy user_id); cbn; [|reflexivity].
  apply lookup_insert_ne. exact Hne.
Qed.

(** A callback on a pending [state] gets as far as the code exchange. *)
Lemma oauth2callback_attempts_exchange ext code state cid st :
  oauth_states st !! state = Some cid ->
  exists later,
    network (snd (oauth2callback str ext code state st))
    = (network st ++ FetchToken code :: later)%list.
Proof.
  intros Hin. unfold oauth2callback, try_except.
  rewrite (oauth2callback_try_present _ _ _ _ _ Hin). cbn.
  destruct (fetch_token ext code) as [creds|e1]; cbn;
    [|exists []; reflexivity].
  destruct (userinfo_email ext _) as [user_id|e1]; cbn;
    [|exists [UserinfoGet]; reflexivity].
  destruct (truthy user_id); cbn; exists [UserinfoGet]; reflexivity.
Qed.

End Callback.

Section CallbackClaims.

Import DriveServer Examples.

Variable str : Exception -> string.

(** Once a callback has run on a [state], a further callback on it answers
    as one whose [state] was never issued. *)
Lemma oauth2callback_reuse ext ext' ext'' code code' code'' state never st :
  oauth_states (snd (oauth2callback str ext code state st)) !! never = None ->
  let st' := snd (oauth2callback str ext code state st) in
  oauth2callback str ext' code' state st' = (invalid_state_answer str, st')
  /\ oauth2callback str ext'' code'' never st' = (invalid_state_answer str, st').
Proof.
  intros Hnever st'. split.
  - apply oauth2callback_absent. apply oauth2callback_state_gone.
  - apply oauth2callback_absent. exact Hnever.
Qed.

(** C1, on the code: Alice's flow token ["state-1"] is consumed by a
    successful callback; presenting it again is answered with status 500,
    not 400, because the 400 raised for the missing state is caught by the
    handler's own [except Exception] and wrapped.  A state that was never
    issued gets the same answer. *)
Theorem oauth2callback_reuse_status_500 :
  let first := oauth2callback str google_up "code-1" "state-1" alice_pending in
  fst first
  = Ok "Authentication successful for user: alice@example.com, You can close this window now."
  /\ oauth_states (snd first) !! "state-1" = None
  /\ fst (oauth2callback_try google_up "code-1" "state-1" (snd first))
     = Raise (HTTPException 400 "Invalid state parameter")
  /\ fst (oauth2callback str google_up "code-1" "state-1" (snd first))
     = Raise (HTTPException 500
                ("Authentication error: "
                 +:+ str (HTTPException 400 "Invalid state parameter")))
  /\ fst (oauth2callback str google_up "code-1" "state-0" (snd first))
     = fst (oauth2callback str google_up "code-1" "state-1" (snd first)).
Proof.
  cbv zeta.
  assert (Hgone : oauth_states
            (snd (oauth2callback str google_up "code-1" "state-1" alice_pending))
            !! "state-1" = None) by apply oauth2callback_state_gone.
  assert (Hnever : oauth_states
            (snd (oauth2callback str google_up "code-1" "state-1" alice_pending))
            !! "state-0" = None) by (vm_compute; reflexivity).
  split; [vm_compute; reflexivity|].
  split; [exact Hgone|].
  split; [rewrite oauth2callback_try_absent by exact Hgone; reflexivity|].
  rewrite !oauth2callback_absent by assumption.
  split; reflexivity.
Qed.

(** C10: when a callback on a pending flow token fails (the code exchange,
    the identity lookup or the missing email), the exchange was attempted,
    the token is gone from [oauth_states] all the same and
    [credentials_store] is as before; a retry with the same [state] raises
    the invalid-state exception in the [try] block and is answered as a
    callback on an unknown state. *)
Theorem oauth2callback_failure_consumes_token
    ext ext' code code' state cid st e :
  oauth_states st !! state = Some cid ->
  fst (oauth2callback str ext code state st) = Raise e ->
  (exists later,
      network (snd (oauth2callback str ext code state st))
      = (network st ++ FetchToken code :: later)%list)
  /\ oauth_states (snd (oauth2callback str ext code state st)) !! state = None
  /\ credentials_store (snd (oauth2callback str ext code state st))
     = credentials_store st
  /\ oauth2callback_try ext' code' state
       (snd (oauth2callback str ext code state st))
     = (Raise (HTTPException 400 "Invalid state parameter"),
        snd (oauth2callback str ext code state st))
  /\ oauth2callback str ext' code' state
       (snd (oauth2callback str ext code state st))
     = (invalid_state_answer str,
        snd (oauth2callback str ext code state st)).
Proof.
  intros Hin Hfail.
  pose proof (oauth2callback_state_gone str ext code state st) as Hgone.
  split; [exact (oauth2callback_attempts_exchange str _ _ _ _ _ Hin)|].
  split; [exact Hgone|].
  split; [exact (oauth2callback_failure_keeps_store str _ _ _ _ _ Hfail)|].
  split.
  - apply oauth2callback_try_absent. exact Hgone.
  - apply oauth2callback_absent. exact Hgone.
Qed.

End CallbackClaims.

Lemma oauth2callback_failure_consumes_token_witness :
  DriveServer.oauth_states Examples.alice_pending !! "state-1" = Some "alice"
  /\ DriveServer.oauth2callback Examples.python_str Examples.google_up
       "code-2" "state-1"
       (snd (DriveServer.oauth2callback Examples.python_str
               Examples.google_down "code-1" "state-1" Examples.alice_pending))
     = (Raise (DriveServer.HTTPException 500
                 "Authentication error: 400: Invalid state parameter"),
        snd (DriveServer.oauth2callback Examples.python_str
               Examples.google_down "code-1" "state-1" Examples.alice_pending)).
Proof.
  split; [reflexivity|].
  refine (proj2 (proj2 (proj2 (proj2 _)))).
  apply (oauth2callback_failure_consumes_token Examples.python_str
           Examples.google_down Examples.google_up "code-1" "code-2"
           "state-1" "alice" Examples.alice_pending
           (DriveServer.HTTPException 500
              "Authentication error: invalid_grant"));
    reflexivity.
Defined.

(** ** Credential resolution *)

Section Resolution.

Import DriveServer.

(** [get_drive_service] on a stored record: the one branch that would
    refresh stops at [Request()]. *)
Lemma get_drive_service_stored ext cid st creds_data :
  truthy_str cid = true ->
  credentials_store st !! cid = Some creds_data ->
  get_drive_service ext cid st =
  if expired ext (Credentials_of creds_data)
     && truthy (cd_refresh_token creds_data)
  then (Raise (TypeError missing_scope), st)
  else (Ok (build "drive" "v3" (Credentials_of creds_data)), st).
Proof.
  intros Hcid Hin. unfold get_drive_service, bind, get_state.
  rewrite Hcid. cbn. rewrite Hin. cbn.
  destruct (expired ext _ && truthy _); reflexivity.
Qed.

Lemma get_drive_service_empty_id ext st :
  get_drive_service ext "" st = (Raise (ValueError "No client_id provided"), st).
Proof. reflexivity. Qed.

Lemma truthy_str_true (s : string) : truthy_str s = true <-> s <> "".
Proof.
  unfold truthy_str. rewrite negb_true_iff. split.
  - intros Hne ->. discriminate.
  - intros Hne. apply String.eqb_neq. exact Hne.
Qed.

Lemma truthy_str_false (s : string) : truthy_str s = false <-> s = "".
Proof.
  unfold truthy_str. rewrite negb_false_iff. apply String.eqb_eq.
Qed.

(** [get_drive_service] leaves the state as it finds it: it writes no
    record and makes no call that leaves the process. *)
Lemma get_drive_service_state ext cid st :
  snd (get_drive_service ext cid st) = st.
Proof.
  destruct (truthy_str cid) eqn:Hcid.
  - destruct (credentials_store st !! cid) as [creds_data|] eqn:Hin.
    + rewrite (get_drive_service_stored _ _ _ _ Hcid Hin).
      destruct (expired ext _ && truthy _); reflexivity.
    + unfold get_drive_service, bind, get_state. rewrite Hcid. cbn.
      rewrite Hin. reflexivity.
  - apply truthy_str_false in Hcid. subst cid. reflexivity.
Qed.

(** C4, as the code has it: when the stored record of a client is expired
    and holds no refresh token, resolution makes no refresh call and leaves
    the store as it is; it does not fail, it hands out a service built on
    the stored credential. *)
Theorem get_drive_service_expired_without_refresh ext cid st creds_data :
  cid <> "" ->
  credentials_store st !! cid = Some creds_data ->
  expired ext (Credentials_of creds_data) = true ->
  truthy (cd_refresh_token creds_data) = false ->
  get_drive_service ext cid st
  = (Ok (build "drive" "v3" (Credentials_of creds_data)), st).
Proof.
  intros Hcid Hin Hexp Hrt. apply truthy_str_true in Hcid.
  rewrite (get_drive_service_stored _ _ _ _ Hcid Hin).
  rewrite Hexp, Hrt. reflexivity.
Qed.

(** C5: for a client with no record in the store, resolution raises the
    [ValueError] of lines 125 or 128 and the state, with its log of calls
    that left the process, is as before. *)
Theorem get_drive_service_no_record ext cid st :
  credentials_store st !! cid = None ->
  get_drive_service ext cid st
  = (Raise (ValueError
              (if truthy_str cid
               then "No credentials found for client_id: " +:+ cid
               else "No client_id provided")),
     st).
Proof.
  intros Hnone. unfold get_drive_service, bind, get_state.
  destruct (truthy_str cid); cbn; [|reflexivity].
  rewrite Hnone. reflexivity.
Qed.

End Resolution.

(** C3, on the code: Alice's record holds a refresh token and her access
    token has run out.  The credentials of lines 134-141 carry no expiry,
    so [creds.expired] does not hold and resolution hands out the old
    access token; where [creds.expired] does hold, resolution stops at
    [Request()] with a [TypeError].  Whatever the upstream would answer, no
    refresh is made and the store keeps the old access token: nothing is
    written back. *)
Theorem get_drive_service_never_writes_back :
  DriveServer.credentials_store Examples.two_clients !! "alice"
  = Some Examples.record_with_refresh
  /\ truthy (DriveServer.cd_refresh_token Examples.record_with_refresh) = true
  /\ DriveServer.get_drive_service Examples.google_no_expiry "alice"
       Examples.two_clients
     = (Ok (DriveServer.build "drive" "v3"
              (DriveServer.mkCredentials "old-access" (Some "refresh-1")
                 "https://oauth2.example/token" "app-id" "app-secret"
                 ["openid"])),
        Examples.two_clients)
  /\ DriveServer.get_drive_service Examples.google_up "alice"
       Examples.two_clients
     = (Raise (DriveServer.TypeError DriveServer.missing_scope),
        Examples.two_clients)
  /\ (forall ext,
        DriveServer.cd_token
          <$> DriveServer.credentials_store
                (snd (DriveServer.get_drive_service ext "alice"
                        Examples.two_clients)) !! "alice"
        = Some "old-access")
  /\ (forall ext,
        DriveServer.network
          (snd (DriveServer.get_drive_service ext "alice"
                  Examples.two_clients))
        = []).
Proof.
  split; [reflexivity|]. split; [reflexivity|].
  split; [reflexivity|]. split; [reflexivity|].
  split; intros ext; rewrite get_drive_service_state; reflexivity.
Qed.

(** C4 as the specification has it fails: Bob's record is expired and has
    no refresh token, and resolution returns a service instead of
    raising. *)
Lemma get_drive_service_expired_without_refresh_returns :
  DriveServer.credentials_store Examples.two_clients !! "bob"
  = Some Examples.record_without_refresh
  /\ DriveServer.expired Examples.google_up
       (DriveServer.Credentials_of Examples.record_without_refresh) = true
  /\ truthy (DriveServer.cd_refresh_token Examples.record_without_refresh)
     = false
  /\ ~ (exists e,
         fst (DriveServer.get_drive_service Examples.google_up "bob"
                Examples.two_clients) = Raise e).
Proof.
  repeat (split; [reflexivity|]).
  intros [e He]. vm_compute in He. discriminate.
Qed.

Lemma get_drive_service_expired_without_refresh_witness :
  "bob" <> ""
  /\ DriveServer.get_drive_service Examples.google_up "bob" Examples.two_clients
     = (Ok (DriveServer.build "drive" "v3"
              (DriveServer.Credentials_of Examples.record_without_refresh)),
        Examples.two_clients).
Proof.
  split; [discriminate|].
  apply (get_drive_service_expired_without_refresh Examples.google_up "bob"
           Examples.two_clients Examples.record_without_refresh);
    [discriminate | reflexivity | reflexivity | reflexivity].
Defined.

Lemma get_drive_service_no_record_witness :
  DriveServer.credentials_store Examples.two_clients !! "carol" = None
  /\ DriveServer.get_drive_service Examples.google_up "carol"
       Examples.two_clients
     = (Raise (DriveServer.ValueError
                 "No credentials found for client_id: carol"),
        Examples.two_clients).
Proof.
  split; [reflexivity|].
  apply (get_drive_service_no_record Examples.google_up "carol"
           Examples.two_clients).
  reflexivity.
Defined.

(** ** The two tools *)

Section Tools.

Import DriveServer.

Variable str : Exception -> string.

Lemma check_authentication_status_header request cid st :
  headers request !! "X-Client-ID" = Some cid ->
  cid <> "" ->
  check_authentication_status request st
  = (Ok (if bool_decide (is_Some (credentials_store st !! cid))
         then "authenticated" else "not authenticated"),
     st).
Proof.
  intros Hhdr Hcid. apply truthy_str_true in Hcid.
  unfold check_authentication_status, bind, get_state.
  rewrite Hhdr. cbn. rewrite Hcid. cbn.
  destruct (bool_decide _); reflexivity.
Qed.

(** C6: for the identifier carried by the header, the tool answers
    ["authenticated"] exactly when the store has an entry for it, whatever
    the entry holds, and ["not authenticated"] otherwise; the state is left
    as it is. *)
Theorem check_authentication_status_presence request cid st :
  headers request !! "X-Client-ID" = Some cid ->
  cid <> "" ->
  (fst (check_authentication_status request st) = Ok "authenticated"
   <-> is_Some (credentials_store st !! cid))
  /\ (forall creds_data, credentials_store st !! cid = Some creds_data ->
        check_authentication_status request st = (Ok "authenticated", st))
  /\ (credentials_store st !! cid = None ->
        check_authentication_status request st = (Ok "not authenticated", st)).
Proof.
  intros Hhdr Hcid.
  rewrite (check_authentication_status_header _ _ _ Hhdr Hcid).
  split; [|split].
  - cbn. case_bool_decide as Hdec; split; intros H; try done.
  - intros creds_data Hin. rewrite bool_decide_eq_true_2; [done|eauto].
  - intros Hnone. rewrite bool_decide_eq_false_2; [done|].
    rewrite Hnone. intros [? ?]. discriminate.
Qed.

(** C7: a callback on a flow token issued to [c1] leaves the answer of
    [check_authentication_status] for any other client [c2] as it was; in
    particular it does not turn it into ["authenticated"]. *)
Theorem oauth2callback_isolates_clients
    ext code state c1 c2 request st :
  oauth_states st !! state = Some c1 ->
  c1 <> c2 ->
  headers request !! "X-Client-ID" = Some c2 ->
  fst (check_authentication_status request
         (snd (oauth2callback str ext code state st)))
  = fst (check_authentication_status request st)
  /\ (fst (check_authentication_status request
             (snd (oauth2callback str ext code state st)))
      = Ok "authenticated" ->
      fst (check_authentication_status request st) = Ok "authenticated").
Proof.
  intros Hin Hne Hhdr.
  assert (Heq : fst (check_authentication_status request
                       (snd (oauth2callback str ext code state st)))
                = fst (check_authentication_status request st)).
  { unfold check_authentication_status, bind, get_state.
    rewrite Hhdr. cbn. destruct (truthy_str c2); cbn; [|reflexivity].
    rewrite (oauth2callback_other_clients str _ _ _ _ _ _ Hin Hne).
    destruct (bool_decide _); reflexivity. }
  split; [exact Heq|]. rewrite Heq. trivial.
Qed.

(** C8: when the header names a client, its credential resolves and the
    listing succeeds with no ["files"] entry or an empty one, the tool
    returns the no-files message. *)
Theorem search_drive_files_empty
    ext request query cid st service st1 results :
  headers request !! "X-Client-ID" = Some cid ->
  get_drive_service ext cid st = (Ok service, st1) ->
  files_list ext service query = Ok results ->
  default [] results = [] ->
  fst (search_drive_files str ext request query st)
  = Ok "No files found matching your query.".
Proof.
  intros Hhdr Hsvc Hlist Hempty.
  assert (Hcid : truthy_str cid = true).
  { destruct (truthy_str cid) eqn:Hc; [reflexivity|].
    apply truthy_str_false in Hc. subst cid.
    rewrite get_drive_service_empty_id in Hsvc. discriminate. }
  unfold search_drive_files, try_except, bind.
  rewrite Hhdr. cbn. rewrite Hcid. cbn. rewrite Hsvc.
  unfold net_call. rewrite Hlist, Hempty. reflexivity.
Qed.

(** Without an HTTP request being served, [search_drive_files] answers
    with the error of [get_http_request()] as a text, and
    [check_authentication_status] raises it. *)
Lemma invoke_without_request ext t st :
  invoke str ext None t st
  = (match t with
     | SearchDriveFiles _ =>
         Ok ("Error searching files: "
             +:+ str (RuntimeError no_active_request))
     | CheckAuthenticationStatus => Raise (RuntimeError no_active_request)
     end,
     st).
Proof. destruct t; reflexivity. Qed.


End Tools.

Lemma check_authentication_status_presence_witness :
  DriveServer.headers (Examples.request_of "bob") !! "X-Client-ID" = Some "bob"
  /\ DriveServer.check_authentication_status (Examples.request_of "bob")
       Examples.two_clients
     = (Ok "authenticated", Examples.two_clients)
  /\ DriveServer.check_authentication_status (Examples.request_of "carol")
       Examples.two_clients
     = (Ok "not authenticated", Examples.two_clients).
Proof.
  split; [reflexivity|]. split.
  - apply (proj1 (proj2 (check_authentication_status_presence
                           (Examples.request_of "bob") "bob"
                           Examples.two_clients eq_refl ltac:(discriminate)))
             Examples.record_without_refresh).
    reflexivity.
  - apply (proj2 (proj2 (check_authentication_status_presence
                           (Examples.request_of "carol") "carol"
                           Examples.two_clients eq_refl ltac:(discriminate)))).
    reflexivity.
Defined.

Lemma oauth2callback_isolates_clients_witness :
  DriveServer.oauth_states Examples.alice_pending !! "state-1" = Some "alice"
  /\ fst (DriveServer.check_authentication_status (Examples.request_of "bob")
            (snd (DriveServer.oauth2callback Examples.python_str
                    Examples.google_up "code-1" "state-1"
                    Examples.alice_pending)))
     = Ok "not authenticated".
Proof.
  split; [reflexivity|].
  rewrite (proj1 (oauth2callback_isolates_clients Examples.python_str
                    Examples.google_up "code-1" "state-1" "alice" "bob"
                    (Examples.request_of "bob") Examples.alice_pending
                    eq_refl ltac:(discriminate) eq_refl)).
  reflexivity.
Defined.

Lemma search_drive_files_empty_witness :
  fst (DriveServer.search_drive_files Examples.python_str Examples.google_up
         (Examples.request_of "bob") "name contains 'report'"
         Examples.two_clients)
  = Ok "No files found matching your query.".
Proof.
  apply (search_drive_files_empty Examples.python_str Examples.google_up
           (Examples.request_of "bob") "name contains 'report'" "bob"
           Examples.two_clients
           (DriveServer.build "drive" "v3"
              (DriveServer.Credentials_of Examples.record_without_refresh))
           Examples.two_clients (Some []));
    reflexivity.
Defined.



(** ** The tool-calling loop *)

Section Loop.

Import GeminiMCPClient.

Variable World : Type.
Variable Exn : Type.
Variable str : Exn -> string.
Variable ConnectionError : string -> Exn.
Variable _query_model :
  list Content -> option (list Tool) -> World -> Result Exn Response * World.
Variable session_call_tool :
  string -> list (string * string) -> World ->
  Result Exn (list string) * World.
Variable session : bool.
Variable tools : option (list Tool).

Local Abbreviation for_parts :=
  (for_parts World Exn str ConnectionError _query_model session_call_tool
             session tools).
Local Abbreviation while_loop :=
  (while_loop World Exn str ConnectionError _query_model session_call_tool
              session tools).
Local Abbreviation query_run :=
  (query_run World Exn str ConnectionError _query_model session_call_tool
             session tools).
Local Abbreviation query :=
  (query World Exn str ConnectionError _query_model session_call_tool
         session tools).

(** The texts one response adds, as a function of its parts. *)
Local Abbreviation added response :=
  (accumulated_texts (first_parts response)).

(** When the [for] loop ends without returning, [final_text_parts] has
    grown by the accumulated texts of the parts; when it ran through all of
    them, those are all the texts there are. *)
Lemma for_parts_accumulates ps :
  forall contents ftp w out w',
    for_parts contents ps ftp w = (out, w') ->
    match out with
    | ForExhausted ftp' =>
        ftp' = (ftp ++ accumulated_texts ps)%list
        /\ accumulated_texts ps = texts ps
    | ForBreak ftp' _ _ => ftp' = (ftp ++ accumulated_texts ps)%list
    | ForReturn _ => True
    end.
Proof.
  induction ps as [|part rest IH]; intros contents ftp w out w' Hfor;
    cbn in Hfor |- *.
  - injection Hfor as <- <-. rewrite app_nil_r. split; reflexivity.
  - destruct (truthy (text part)).
    + specialize (IH _ _ _ _ _ Hfor).
      destruct out as [ftp'|ftp' contents' response'|value]; [| |exact I].
      * destruct IH as [-> ->]. rewrite <- app_assoc. split; reflexivity.
      * rewrite IH, <- app_assoc. reflexivity.
    + destruct (function_call part) as [fc|].
      * destruct session; cbn in Hfor.
        2: { injection Hfor as <- <-. exact I. }
        destruct (session_call_tool _ _ w) as [[result|e] w1].
        2: { injection Hfor as <- <-. exact I. }
        destruct (_query_model _ _ w1) as [[response|e] w2];
          injection Hfor as <- <-; [|exact I].
        rewrite app_nil_r. reflexivity.
      * exact (IH _ _ _ _ _ Hfor).
Qed.

Lemma while_loop_S fuel contents response ftp seen w :
  while_loop (S fuel) contents response ftp seen w =
  match first_parts response with
  | [] =>
      Some (mkRun (join nl ftp) LoopCondition (seen ++ [response])%list, w)
  | ps =>
      match for_parts contents ps ftp w with
      | (ForExhausted ftp', w') =>
          Some (mkRun (join nl ftp') NoToolCall (seen ++ [response])%list, w')
      | (ForBreak ftp' contents' response', w') =>
          while_loop fuel contents' response' ftp' (seen ++ [response])%list w'
      | (ForReturn value, w') =>
          Some (mkRun value ToolFailed (seen ++ [response])%list, w')
      end
  end.
Proof. reflexivity. Qed.

(** The [while] loop, when it ends at the final [return]: the responses it
    went through come after those seen before, and the string returned is
    [final_text_parts], grown by what each of them added, joined by
    newlines. *)
Lemma while_loop_joins fuel :
  forall contents response ftp seen w run w',
    while_loop fuel contents response ftp seen w = Some (run, w') ->
    exit run <> ToolFailed ->
    exists earlier final,
      responses run = (seen ++ earlier ++ [final])%list
      /\ returned run
         = join nl (ftp ++ flat_map (fun r => added r) earlier ++ added final)
      /\ (exit run = NoToolCall -> added final = texts (first_parts final)).
Proof.
  induction fuel as [|fuel IH]; intros contents response ftp seen w run w'
    Hloop Hexit; [discriminate|].
  rewrite while_loop_S in Hloop.
  destruct (first_parts response) as [|part rest] eqn:Hparts.
  - injection Hloop as <- <-. exists [], response. cbn.
    rewrite Hparts. cbn. rewrite app_nil_r.
    split; [reflexivity|]. split; [reflexivity|]. discriminate.
  - destruct (for_parts contents (part :: rest) ftp w) as [out w1] eqn:Hfor.
    pose proof (for_parts_accumulates _ _ _ _ _ _ Hfor) as Hacc.
    destruct out as [ftp'|ftp' contents' response'|value].
    + injection Hloop as <- <-. destruct Hacc as [-> Hall].
      exists [], response. cbn [responses returned exit flat_map app].
      rewrite Hparts. split; [reflexivity|]. split; [reflexivity|].
      intros _. exact Hall.
    + destruct (IH _ _ _ _ _ _ _ Hloop Hexit)
        as (earlier & final & Hresp & Hret & Hlast).
      exists (response :: earlier), final.
      split; [rewrite Hresp, <- app_assoc; reflexivity|].
      split; [|exact Hlast].
      rewrite Hret, Hacc. cbn [flat_map]. rewrite Hparts.
      rewrite <- !app_assoc. reflexivity.
    + injection Hloop as <- <-. cbn in Hexit. congruence.
Qed.

(** More fuel does not change what the loop returns. *)
Lemma while_loop_fuel_mono fuel :
  forall fuel' contents response ftp seen w result,
    (fuel <= fuel')%nat ->
    while_loop fuel contents response ftp seen w = Some result ->
    while_loop fuel' contents response ftp seen w = Some result.
Proof.
  induction fuel as [|fuel IH]; intros fuel' contents response ftp seen w
    result Hle Hloop; [discriminate|].
  destruct fuel' as [|fuel']; [lia|].
  rewrite while_loop_S in Hloop |- *.
  destruct (first_parts response) as [|part rest]; [exact Hloop|].
  destruct (for_parts contents (part :: rest) ftp w) as [[ftp1|ftp1 c1 r1|v] w1];
    try exact Hloop.
  apply IH; [lia|exact Hloop].
Qed.

Lemma only_function_calls_add_nothing ps :
  Forall only_function_call ps -> accumulated_texts ps = [].
Proof.
  destruct 1 as [|part rest [Htext Hcall] _]; [reflexivity|].
  cbn. rewrite Htext. destruct (function_call part); [reflexivity|congruence].
Qed.

Lemma silent_responses_add_nothing (rs : list Response) :
  Forall (fun r => Forall only_function_call (first_parts r)) rs ->
  flat_map (fun r => added r) rs = [].
Proof.
  induction 1 as [|r rs Hr _ IH]; [reflexivity|].
  cbn. rewrite (only_function_calls_add_nothing _ Hr), IH. reflexivity.
Qed.

(** What the loop gathers from a response is the texts of its parts
    before the first dispatched call. *)
Lemma accumulated_texts_before ps :
  accumulated_texts ps = texts (before_first_call ps).
Proof.
  induction ps as [|part rest IH]; [reflexivity|].
  cbn. unfold dispatched. destruct (truthy (text part)) eqn:Htext; cbn.
  - rewrite Htext, IH. reflexivity.
  - destruct (function_call part); cbn; [reflexivity|].
    rewrite Htext. exact IH.
Qed.

Lemma flat_map_added (rs : list Response) :
  flat_map (fun r => added r) rs
  = flat_map (fun r => texts (before_first_call (first_parts r))) rs.
Proof.
  induction rs as [|r rs IH]; [reflexivity|].
  cbn. rewrite accumulated_texts_before, IH. reflexivity.
Qed.

Lemma flat_map_texts_complete (rs : list Response) :
  Forall (fun r => texts (before_first_call (first_parts r))
                   = texts (first_parts r)) rs ->
  flat_map (fun r => texts (before_first_call (first_parts r))) rs
  = flat_map (fun r => texts (first_parts r)) rs.
Proof.
  induction 1 as [|r rs Hr _ IH]; [reflexivity|].
  cbn. rewrite Hr, IH. reflexivity.
Qed.

(** C2, as the code has it: a call of [query] that ends on a response
    without a tool call returns, joined by newlines and in turn order, the
    texts of each response up to its first dispatched function call, and
    all the texts of the final response; a text that follows the call in
    the same response is left out.  When every earlier response consists
    of function calls only, that is the texts of the final response joined
    by newlines; when no response has a text after its call, it is all the
    texts of the run joined by newlines. *)
Theorem query_returns_joined_texts fuel q w run w' :
  query_run fuel q w = Some (Ok run, w') ->
  exit run = NoToolCall ->
  query fuel q w = Some (Ok (returned run), w')
  /\ returned run
     = join nl (flat_map
                  (fun r => texts (before_first_call (first_parts r)))
                  (responses run))
  /\ (forall earlier final,
        responses run = (earlier ++ [final])%list ->
        returned run
        = join nl (flat_map
                     (fun r => texts (before_first_call (first_parts r)))
                     earlier
                   ++ texts (first_parts final))
        /\ (Forall (fun r => Forall only_function_call (first_parts r))
                   earlier ->
            returned run = join nl (texts (first_parts final))))
  /\ (Forall (fun r => texts (before_first_call (first_parts r))
                       = texts (first_parts r))
             (responses run) ->
      returned run
      = join nl (flat_map (fun r => texts (first_parts r)) (responses run))).
Proof.
  intros Hrun Hexit.
  split; [unfold GeminiMCPClient.query; rewrite Hrun; reflexivity|].
  unfold GeminiMCPClient.query_run in Hrun.
  destruct (negb session); [discriminate|].
  destruct (_query_model _ _ w) as [[response|e] w1]; [|discriminate].
  destruct (while_loop fuel _ response [] [] w1) as [[run1 w2]|] eqn:Hloop;
    [|discriminate].
  injection Hrun as -> ->.
  destruct (while_loop_joins _ _ _ _ _ _ _ _ Hloop)
    as (earlier & final & Hresp & Hret & Hlast); [congruence|].
  cbn in Hresp, Hret.
  assert (Hall : returned run
                 = join nl (flat_map
                              (fun r => texts (before_first_call (first_parts r)))
                              (responses run))).
  { rewrite Hret, Hresp, <- flat_map_added, flat_map_app. cbn.
    rewrite app_nil_r. reflexivity. }
  split; [exact Hall|]. split.
  - intros earlier' final' Hresp'.
    rewrite Hresp in Hresp'. apply app_inj_tail in Hresp' as [<- <-].
    split.
    + rewrite Hret, (Hlast Hexit), flat_map_added. reflexivity.
    + intros Hsilent.
      rewrite Hret, (silent_responses_add_nothing _ Hsilent), (Hlast Hexit).
      reflexivity.
  - intros Hcomplete. rewrite Hall.
    rewrite (flat_map_texts_complete _ Hcomplete). reflexivity.
Qed.

End Loop.

(** C2 as the specification has it fails.  The model says
    ["Let me look."], calls the tool and says ["One moment."] in one
    response, and ["You have no reports."] in its final answer.  The text
    after the call is left out, and a newline goes between the two that
    are kept: the result is neither the concatenation of the three texts
    nor the three joined by newlines. *)
Lemma query_result_is_not_concatenation :
  exists run,
    Examples.scripted_query_run Examples.interrupted_script 2
    = Some (Ok run, tt)
    /\ GeminiMCPClient.exit run = GeminiMCPClient.NoToolCall
    /\ flat_map (fun r => GeminiMCPClient.texts
                            (GeminiMCPClient.first_parts r))
                (GeminiMCPClient.responses run)
       = ["Let me look."; "One moment."; "You have no reports."]
    /\ GeminiMCPClient.returned run
       = "Let me look." +:+ nl +:+ "You have no reports."
    /\ GeminiMCPClient.returned run
       <> GeminiMCPClient.concatenation
            (flat_map (fun r => GeminiMCPClient.texts
                                  (GeminiMCPClient.first_parts r))
                      (GeminiMCPClient.responses run))
    /\ GeminiMCPClient.returned run
       <> join nl
            (flat_map (fun r => GeminiMCPClient.texts
                                  (GeminiMCPClient.first_parts r))
                      (GeminiMCPClient.responses run)).
Proof.
  eexists. split; [vm_compute; reflexivity|].
  split; [reflexivity|]. split; [reflexivity|]. split; [reflexivity|].
  split; vm_compute; discriminate.
Qed.

Lemma query_returns_joined_texts_witness :
  Examples.scripted_query_run Examples.interrupted_script 2
  = Some (Ok (GeminiMCPClient.mkRun
                ("Let me look." +:+ nl +:+ "You have no reports.")
                GeminiMCPClient.NoToolCall Examples.interrupted_script), tt)
  /\ GeminiMCPClient.query unit string (fun msg => msg) (fun msg => msg)
       (Examples.scripted_model Examples.interrupted_script)
       Examples.session_finds_nothing true None 2 "List my reports" tt
     = Some (Ok ("Let me look." +:+ nl +:+ "You have no reports."), tt).
Proof.
  split; [reflexivity|].
  apply (query_returns_joined_texts unit string (fun msg => msg)
           (fun msg => msg)
           (Examples.scripted_model Examples.interrupted_script)
           Examples.session_finds_nothing true None 2 "List my reports" tt
           (GeminiMCPClient.mkRun
              ("Let me look." +:+ nl +:+ "You have no reports.")
              GeminiMCPClient.NoToolCall Examples.interrupted_script) tt);
    reflexivity.
Defined.

(** ** The programs at work *)

Section Walkthrough.

Import DriveServer Examples.

(** [/authorize?client_id=alice] records the flow token and redirects. *)
Example authorize_alice :
  authorize google_up (authorize_request "alice") empty_state
  = (Ok "https://accounts.example/auth?state=state-1", alice_pending).
Proof. reflexivity. Qed.

(** Without [client_id] the dependency answers 400 and nothing is stored. *)
Example authorize_without_client_id :
  authorize google_up request_without_header empty_state
  = (Raise (HTTPException 400
              "client_id query parameter is required for authorization"),
     empty_state).
Proof. reflexivity. Qed.

(** The callback stores Alice's record and makes two upstream calls. *)
Example callback_alice :
  let st := snd (oauth2callback python_str google_up "code-1" "state-1"
                   alice_pending) in
  credentials_store st !! "alice"
  = Some (mkCredsData "access-1" (Some "refresh-1")
            "https://oauth2.example/token" "app-id" "app-secret" ["openid"])
  /\ network st = [FetchToken "code-1"; UserinfoGet]
  /\ fst (check_authentication_status (request_of "alice") st)
     = Ok "authenticated".
Proof. cbv zeta. repeat split; vm_compute; reflexivity. Qed.

(** A listing with two files. *)
Example search_two_files :
  fst (search_drive_files python_str google_with_files (request_of "bob")
         "name contains 'report'" two_clients)
  = Ok ("Files found:" +:+ nl
        +:+ "- report.pdf (application/pdf)" +:+ nl
        +:+ "  Link: https://drive.example/1" +:+ nl
        +:+ "- notes (text/plain)").
Proof. vm_compute. reflexivity. Qed.

(** Where the credential counts as expired, the [TypeError] of
    [Request()] surfaces as the tool's text. *)
Example search_with_expired_credential :
  fst (search_drive_files python_str google_up (request_of "alice")
         "name contains 'report'" two_clients)
  = Ok ("Error searching files: " +:+ missing_scope).
Proof. vm_compute. reflexivity. Qed.

(** One iteration is not enough for a run with a tool call. *)
Example silent_run_needs_two_iterations :
  scripted_query_run silent_script 1 = None.
Proof. reflexivity. Qed.

End Walkthrough.

(** ** Beyond the claims: the authorization endpoints *)

Section Authorization.

Import DriveServer.

Variable str : Exception -> string.

(** [/authorize] without a usable [client_id] answers 400 and records no
    flow token. *)
Theorem authorize_requires_client_id ext request st :
  truthy (query_params request !! "client_id") = false ->
  authorize ext request st
  = (Raise (HTTPException 400
              "client_id query parameter is required for authorization"),
     st).
Proof.
  intros Hcid. unfold authorize, bind, get_client_id_from_request.
  destruct (query_params request !! "client_id") as [cid|]; cbn in Hcid |- *.
  - rewrite Hcid. reflexivity.
  - reflexivity.
Qed.

Lemma authorize_with_client_id ext request cid st :
  query_params request !! "client_id" = Some cid ->
  cid <> "" ->
  authorize ext request st
  = (authorization_url ext (uuid4 ext),
     mkServerState (credentials_store st)
                   (<[uuid4 ext := cid]> (oauth_states st))
                   (network st)).
Proof.
  intros Hq Hcid. apply truthy_str_true in Hcid.
  unfold authorize, bind, get_client_id_from_request.
  rewrite Hq, Hcid. reflexivity.
Qed.

(** [/authorize] records the flow token before it builds the flow: the
    token maps to the client whether the redirect URL could be made or
    building it raised; the credentials, the other tokens and the log of
    calls that left the process are as before. *)
Theorem authorize_records_token ext request cid st :
  query_params request !! "client_id" = Some cid ->
  cid <> "" ->
  fst (authorize ext request st) = authorization_url ext (uuid4 ext)
  /\ oauth_states (snd (authorize ext request st)) !! uuid4 ext = Some cid
  /\ (forall other, other <> uuid4 ext ->
        oauth_states (snd (authorize ext request st)) !! other
        = oauth_states st !! other)
  /\ credentials_store (snd (authorize ext request st)) = credentials_store st
  /\ network (snd (authorize ext request st)) = network st.
Proof.
  intros Hq Hcid. rewrite (authorize_with_client_id _ _ _ _ Hq Hcid). cbn.
  split; [reflexivity|]. split; [apply lookup_insert_eq|].
  split; [|split; reflexivity].
  intros other Hne. apply lookup_insert_ne. congruence.
Qed.

(** The whole flow: after [/authorize] for a client, a callback on the
    token it issued, with an upstream that answers and names an email,
    confirms that email, stores the exchanged credentials under that
    client, consumes the token, and makes [check_authentication_status]
    answer ["authenticated"] for that client. *)
Theorem authorize_then_callback_authenticates
    ext ext' request cid code creds email st :
  query_params request !! "client_id" = Some cid ->
  cid <> "" ->
  fetch_token ext' code = Ok creds ->
  userinfo_email ext' (build "oauth2" "v2" creds) = Ok (Some email) ->
  email <> "" ->
  let st1 := snd (authorize ext request st) in
  let st2 := snd (oauth2callback str ext' code (uuid4 ext) st1) in
  fst (oauth2callback str ext' code (uuid4 ext) st1)
  = Ok ("Authentication successful for user: " +:+ email
        +:+ ", You can close this window now.")
  /\ credentials_store st2 !! cid = Some (creds_data_of creds)
  /\ oauth_states st2 !! uuid4 ext = None
  /\ (forall request',
        headers request' !! "X-Client-ID" = Some cid ->
        check_authentication_status request' st2 = (Ok "authenticated", st2)).
Proof.
  intros Hq Hcid Hfetch Hinfo Hemail st1 st2.
  assert (Hpending : oauth_states st1 !! uuid4 ext = Some cid).
  { subst st1. rewrite (authorize_with_client_id _ _ _ _ Hq Hcid). cbn.
    apply lookup_insert_eq. }
  assert (Hcb : oauth2callback str ext' code (uuid4 ext) st1
                = (Ok ("Authentication successful for user: " +:+ email
                       +:+ ", You can close this window now."),
                   mkServerState
                     (<[cid := creds_data_of creds]> (credentials_store st1))
                     (delete (uuid4 ext) (oauth_states st1))
                     (network st1 ++ [FetchToken code] ++ [UserinfoGet]))).
  { unfold oauth2callback, try_except.
    rewrite (oauth2callback_try_present _ _ _ _ _ Hpending).
    cbv zeta. rewrite Hfetch, Hinfo. cbn.
    apply truthy_str_true in Hemail. rewrite Hemail. reflexivity. }
  assert (Hstored : credentials_store st2 !! cid = Some (creds_data_of creds)).
  { subst st2. rewrite Hcb. cbn. apply lookup_insert_eq. }
  split; [rewrite Hcb; reflexivity|].
  split; [exact Hstored|].
  split; [subst st2; apply oauth2callback_state_gone|].
  intros request' Hhdr.
  rewrite (check_authentication_status_header _ _ _ Hhdr Hcid).
  rewrite bool_decide_eq_true_2; [reflexivity|]. rewrite Hstored. eauto.
Qed.

(** Whatever goes wrong in the callback, the exception that leaves the
    handler is an [HTTPException] with status 500: the two 400s raised in
    the [try] block never reach the caller. *)
Theorem oauth2callback_only_raises_500 ext code state st e :
  fst (oauth2callback str ext code state st) = Raise e ->
  exists cause, e = HTTPException 500 ("Authentication error: " +:+ str cause).
Proof.
  unfold oauth2callback, try_except.
  destruct (oauth2callback_try ext code state st) as [[msg|cause] st'];
    cbn; intros Hraise; [discriminate|].
  exists cause. congruence.
Qed.

(** A callback takes its own [state] out of [oauth_states] and nothing
    else, whatever it answers: other pending flows stay pending. *)
Theorem oauth2callback_pops_only_its_state ext code state st :
  oauth_states (snd (oauth2callback str ext code state st))
  = delete state (oauth_states st).
Proof.
  destruct (oauth_states st !! state) as [cid|] eqn:Hin.
  - unfold oauth2callback, try_except.
    rewrite (oauth2callback_try_present _ _ _ _ _ Hin). cbn.
    destruct (fetch_token ext code) as [creds|e]; cbn; [|reflexivity].
    destruct (userinfo_email ext _) as [user_id|e]; cbn; [|reflexivity].
    destruct (truthy user_id); reflexivity.
  - rewrite oauth2callback_absent by exact Hin. cbn.
    symmetry. apply delete_id. exact Hin.
Qed.

End Authorization.

Lemma authorize_requires_client_id_witness :
  DriveServer.authorize Examples.google_up Examples.request_without_header
    Examples.alice_pending
  = (Raise (DriveServer.HTTPException 400
              "client_id query parameter is required for authorization"),
     Examples.alice_pending).
Proof.
  apply (authorize_requires_client_id Examples.google_up
           Examples.request_without_header Examples.alice_pending).
  reflexivity.
Defined.

Lemma authorize_records_token_witness :
  DriveServer.oauth_states
    (snd (DriveServer.authorize Examples.google_down
            (Examples.authorize_request "bob") Examples.empty_state))
  !! "state-1" = Some "bob".
Proof.
  apply (authorize_records_token Examples.google_down
           (Examples.authorize_request "bob") "bob" Examples.empty_state);
    [reflexivity | discriminate].
Defined.

Lemma authorize_then_callback_authenticates_witness :
  DriveServer.check_authentication_status (Examples.request_of "alice")
    (snd (DriveServer.oauth2callback Examples.python_str Examples.google_up
            "code-1" "state-1"
            (snd (DriveServer.authorize Examples.google_up
                    (Examples.authorize_request "alice")
                    Examples.empty_state))))
  = (Ok "authenticated",
     snd (DriveServer.oauth2callback Examples.python_str Examples.google_up
            "code-1" "state-1"
            (snd (DriveServer.authorize Examples.google_up
                    (Examples.authorize_request "alice")
                    Examples.empty_state)))).
Proof.
  apply (proj2 (proj2 (proj2
           (authorize_then_callback_authenticates Examples.python_str
              Examples.google_up Examples.google_up
              (Examples.authorize_request "alice") "alice" "code-1"
              (DriveServer.mkCredentials "access-1" (Some "refresh-1")
                 "https://oauth2.example/token" "app-id" "app-secret"
                 ["openid"])
              "alice@example.com" Examples.empty_state
              eq_refl ltac:(discriminate) eq_refl eq_refl
              ltac:(discriminate))))).
  reflexivity.
Defined.

Lemma oauth2callback_only_raises_500_witness :
  exists cause,
    DriveServer.HTTPException 500
      "Authentication error: 400: Could not retrieve user email"
    = DriveServer.HTTPException 500
        ("Authentication error: " +:+ Examples.python_str cause).
Proof.
  apply (oauth2callback_only_raises_500 Examples.python_str
           (DriveServer.mkExternal "state-1"
              (DriveServer.authorization_url Examples.google_up)
              (DriveServer.fetch_token Examples.google_up)
              (fun service => Ok None)
              (DriveServer.expired Examples.google_up)
              (DriveServer.refresh Examples.google_up)
              (DriveServer.files_list Examples.google_up))
           "code-1" "state-1" Examples.alice_pending).
  reflexivity.
Defined.

(** ** Beyond the claims: credential resolution and the tools *)

Section ResolutionAndTools.

Import DriveServer.

Variable str : Exception -> string.

(** [get_drive_service] in full, by cases on the identifier and the
    store. *)
Lemma get_drive_service_cases ext cid st :
  (cid = ""
   /\ get_drive_service ext cid st
      = (Raise (ValueError "No client_id provided"), st))
  \/ (cid <> "" /\ credentials_store st !! cid = None
      /\ get_drive_service ext cid st
         = (Raise (ValueError
                     ("No credentials found for client_id: " +:+ cid)), st))
  \/ (exists creds_data,
        cid <> "" /\ credentials_store st !! cid = Some creds_data
        /\ get_drive_service ext cid st
           = if expired ext (Credentials_of creds_data)
                && truthy (cd_refresh_token creds_data)
             then (Raise (TypeError missing_scope), st)
             else (Ok (build "drive" "v3" (Credentials_of creds_data)), st)).
Proof.
  destruct (truthy_str cid) eqn:Hcid.
  - right. destruct (credentials_store st !! cid) as [creds_data|] eqn:Hin.
    + right. exists creds_data.
      split; [apply truthy_str_true; exact Hcid|]. split; [reflexivity|].
      apply get_drive_service_stored; assumption.
    + left. split; [apply truthy_str_true; exact Hcid|].
      split; [reflexivity|].
      unfold get_drive_service, bind, get_state. rewrite Hcid. cbn.
      rewrite Hin. reflexivity.
  - left. apply truthy_str_false in Hcid. subst cid.
    split; [reflexivity|]. apply get_drive_service_empty_id.
Qed.

(** Resolution keeps the set of clients that have a record. *)
Lemma get_drive_service_keeps_presence ext cid st other :
  is_Some (credentials_store (snd (get_drive_service ext cid st)) !! other)
  <-> is_Some (credentials_store st !! other).
Proof. rewrite get_drive_service_state. reflexivity. Qed.

(** Resolution changes nothing at all: for every client, store and
    upstream, the credential store, the pending flow tokens and the log of
    calls that left the process are afterwards what they were.  No access
    token is ever renewed by it. *)
Theorem get_drive_service_changes_nothing ext cid st :
  get_drive_service ext cid st = (fst (get_drive_service ext cid st), st)
  /\ (forall creds_data,
        credentials_store st !! cid = Some creds_data ->
        forall service,
          fst (get_drive_service ext cid st) = Ok service ->
          token (credentials service) = cd_token creds_data).
Proof.
  split.
  - rewrite <- (get_drive_service_state ext cid st) at 3.
    destruct (get_drive_service ext cid st); reflexivity.
  - intros creds_data Hin service.
    destruct (get_drive_service_cases ext cid st)
      as [[_ ->]|[(_ & _ & ->)|(creds_data' & _ & Hin' & ->)]];
      cbn; try discriminate.
    rewrite Hin in Hin'. injection Hin' as <-.
    destruct (expired ext _ && truthy _); cbn; [discriminate|].
    intros [= <-]. reflexivity.
Qed.

(** What resolution can touch: the pending flow tokens stay, the records
    of other clients stay, no record appears or disappears, and at most
    one call leaves the process, a token refresh. *)
Theorem get_drive_service_frame ext cid st :
  oauth_states (snd (get_drive_service ext cid st)) = oauth_states st
  /\ (forall other, other <> cid ->
        credentials_store (snd (get_drive_service ext cid st)) !! other
        = credentials_store st !! other)
  /\ (forall other,
        is_Some (credentials_store (snd (get_drive_service ext cid st))
                 !! other)
        <-> is_Some (credentials_store st !! other))
  /\ (network (snd (get_drive_service ext cid st)) = network st
      \/ network (snd (get_drive_service ext cid st))
         = (network st ++ [TokenRefresh])%list).
Proof.
  rewrite get_drive_service_state.
  split; [reflexivity|]. split; [reflexivity|]. split; [reflexivity|].
  left. reflexivity.
Qed.

(** [search_drive_files] when the header names a client, by the outcome of
    the resolution. *)
Lemma search_drive_files_with_header ext request query cid st :
  headers request !! "X-Client-ID" = Some cid ->
  cid <> "" ->
  search_drive_files str ext request query st =
  match get_drive_service ext cid st with
  | (Raise e, st1) => (Ok ("Error searching files: " +:+ str e), st1)
  | (Ok service, st1) =>
      let st2 := mkServerState (credentials_store st1) (oauth_states st1)
                               (network st1 ++ [FilesList query]) in
      match files_list ext service query with
      | Raise e => (Ok ("Error searching files: " +:+ str e), st2)
      | Ok results =>
          match default [] results with
          | [] => (Ok "No files found matching your query.", st2)
          | items =>
              (Ok (join nl ("Files found:" :: map file_info items)), st2)
          end
      end
  end.
Proof.
  intros Hhdr Hcid. apply truthy_str_true in Hcid.
  unfold search_drive_files, try_except, bind. rewrite Hhdr. cbn.
  rewrite Hcid. cbn.
  destruct (get_drive_service ext cid st) as [[service|e] st1]; [|reflexivity].
  unfold net_call. destruct (files_list ext service query) as [results|e];
    [|reflexivity].
  destruct (default [] results); reflexivity.
Qed.

Lemma search_drive_files_without_header ext request query st :
  truthy (headers request !! "X-Client-ID") = false ->
  search_drive_files str ext request query st
  = (Ok "No client_id provided for authentication.", st).
Proof.
  intros Hhdr. unfold search_drive_files, try_except. rewrite Hhdr.
  reflexivity.
Qed.

Lemma header_cases request :
  truthy (headers request !! "X-Client-ID") = false
  \/ exists cid, headers request !! "X-Client-ID" = Some cid /\ cid <> "".
Proof.
  destruct (headers request !! "X-Client-ID") as [cid|] eqn:Hhdr;
    [|left; reflexivity].
  cbn. destruct (truthy_str cid) eqn:Hcid; [|left; reflexivity].
  right. exists cid. split; [reflexivity|]. apply truthy_str_true, Hcid.
Qed.

(** On an HTTP request, a tool as FastMCP runs it is the handler applied
    to that request. *)
Lemma invoke_with_request ext request t st :
  invoke str ext (Some request) t st = call_tool str ext request t st.
Proof.
  destruct t as [query|]; [|reflexivity].
  unfold invoke, call_tool, try_except at 1, bind, get_http_request, ret.
  assert (Hok : exists text st',
            search_drive_files str ext request query st = (Ok text, st')).
  { destruct (header_cases request) as [Hhdr|(cid & Hhdr & Hcid)].
    - rewrite search_drive_files_without_header by exact Hhdr. eauto.
    - rewrite (search_drive_files_with_header _ _ _ _ _ Hhdr Hcid).
      destruct (get_drive_service ext cid st) as [[service|e] st1]; [|eauto].
      cbv zeta.
      destruct (files_list ext service query) as [results|e]; [|eauto].
      destruct (default [] results); eauto. }
  destruct Hok as (text & st' & ->). reflexivity.
Qed.

(** [search_drive_files] never raises: whatever the request, the store
    and the upstream do, the caller gets a text. *)
Theorem search_drive_files_never_raises ext request query st :
  exists text, fst (search_drive_files str ext request query st) = Ok text.
Proof.
  destruct (header_cases request) as [Hhdr|(cid & Hhdr & Hcid)].
  - rewrite search_drive_files_without_header by exact Hhdr. eauto.
  - rewrite (search_drive_files_with_header _ _ _ _ _ Hhdr Hcid).
    destruct (get_drive_service ext cid st) as [[service|e] st1]; [|eauto].
    cbv zeta. destruct (files_list ext service query) as [results|e]; [|eauto].
    destruct (default [] results); eauto.
Qed.

(** A client that never authenticated gets the missing-credentials error
    as the tool's text; the Drive API is not called and nothing changes. *)
Theorem search_drive_files_unauthenticated ext request query cid st :
  headers request !! "X-Client-ID" = Some cid ->
  cid <> "" ->
  credentials_store st !! cid = None ->
  search_drive_files str ext request query st
  = (Ok ("Error searching files: "
         +:+ str (ValueError ("No credentials found for client_id: " +:+ cid))),
     st).
Proof.
  intros Hhdr Hcid Hnone.
  rewrite (search_drive_files_with_header _ _ _ _ _ Hhdr Hcid).
  destruct (get_drive_service_cases ext cid st)
    as [[-> _]|[(_ & _ & ->)|(creds_data & _ & Hin & _)]];
    [done|reflexivity|congruence].
Qed.

(** When the credential resolves, the listing is the one call made after
    it, and it carries the caller's query as it came. *)
Theorem search_drive_files_forwards_query
    ext request query cid st service st1 :
  headers request !! "X-Client-ID" = Some cid ->
  get_drive_service ext cid st = (Ok service, st1) ->
  network (snd (search_drive_files str ext request query st))
  = (network st1 ++ [FilesList query])%list
  /\ credentials_store (snd (search_drive_files str ext request query st))
     = credentials_store st1.
Proof.
  intros Hhdr Hsvc.
  assert (Hcid : cid <> "").
  { intros ->. rewrite get_drive_service_empty_id in Hsvc. discriminate. }
  rewrite (search_drive_files_with_header _ _ _ _ _ Hhdr Hcid), Hsvc.
  cbv zeta. destruct (files_list ext service query) as [results|e];
    [|split; reflexivity].
  destruct (default [] results); split; reflexivity.
Qed.

(** What a search can touch: it leaves the credential store and the
    pending flow tokens as they are, and the one call it can make is the
    listing, with the caller's query as it came. *)
Theorem search_drive_files_frame ext request query st :
  credentials_store (snd (search_drive_files str ext request query st))
  = credentials_store st
  /\ oauth_states (snd (search_drive_files str ext request query st))
     = oauth_states st
  /\ (network (snd (search_drive_files str ext request query st))
      = network st
      \/ network (snd (search_drive_files str ext request query st))
         = (network st ++ [FilesList query])%list).
Proof.
  destruct (header_cases request) as [Hhdr|(cid & Hhdr & Hcid)].
  - rewrite search_drive_files_without_header by exact Hhdr.
    split; [reflexivity|]. split; [reflexivity|]. left. reflexivity.
  - rewrite (search_drive_files_with_header _ _ _ _ _ Hhdr Hcid).
    pose proof (get_drive_service_state ext cid st) as Hstate.
    destruct (get_drive_service ext cid st) as [[service|e] st1];
      cbn in Hstate; subst st1.
    + cbv zeta. destruct (files_list ext service query) as [results|e].
      * destruct (default [] results); cbn;
          (split; [reflexivity|]; split; [reflexivity|]; right; reflexivity).
      * cbn. split; [reflexivity|]. split; [reflexivity|]. right. reflexivity.
    + cbn. split; [reflexivity|]. split; [reflexivity|]. left. reflexivity.
Qed.

Lemma check_authentication_status_state request st :
  snd (check_authentication_status request st) = st.
Proof.
  unfold check_authentication_status, bind, get_state.
  destruct (negb (truthy (headers request !! "X-Client-ID")));
    [reflexivity|]. cbn.
  destruct (bool_decide _); reflexivity.
Qed.

(** [check_authentication_status] on any request: it answers
    ["authenticated"] only for a non-empty header value that has a record,
    and never changes the state. *)
Theorem check_authentication_status_authenticated_iff request st :
  (fst (check_authentication_status request st) = Ok "authenticated"
   <-> exists cid,
         headers request !! "X-Client-ID" = Some cid /\ cid <> ""
         /\ is_Some (credentials_store st !! cid))
  /\ snd (check_authentication_status request st) = st.
Proof.
  destruct (header_cases request) as [Hhdr|(cid & Hhdr & Hcid)].
  - unfold check_authentication_status. rewrite Hhdr. cbn.
    split; [|reflexivity]. split; [discriminate|].
    intros (cid & Hsome & Hcid & _). rewrite Hsome in Hhdr. cbn in Hhdr.
    apply truthy_str_true in Hcid. congruence.
  - rewrite (check_authentication_status_header _ _ _ Hhdr Hcid). cbn.
    split; [|reflexivity]. case_bool_decide as Hdec.
    + split; [eauto|reflexivity].
    + split; [discriminate|].
      intros (cid' & Hsome & _ & Hrec). congruence.
Qed.

(** No tool call changes what [check_authentication_status] answers, for
    any client: a search, even one that refreshes a token or fails, never
    logs a client in or out. *)
Theorem call_tool_keeps_authentication_status ext request t st request' :
  fst (check_authentication_status request'
         (snd (call_tool str ext request t st)))
  = fst (check_authentication_status request' st).
Proof.
  assert (Hdom : forall other,
            is_Some (credentials_store (snd (call_tool str ext request t st))
                     !! other)
            <-> is_Some (credentials_store st !! other)).
  { intros other. destruct t as [query|]; cbn.
    - destruct (header_cases request) as [Hhdr|(cid & Hhdr & Hcid)].
      + rewrite search_drive_files_without_header by exact Hhdr. done.
      + rewrite (search_drive_files_with_header _ _ _ _ _ Hhdr Hcid).
        pose proof (get_drive_service_keeps_presence ext cid st other) as Hk.
        destruct (get_drive_service ext cid st) as [[service|e] st1];
          cbn in Hk |- *; [|exact Hk].
        destruct (files_list ext service query) as [results|e]; [|exact Hk].
        destruct (default [] results); exact Hk.
    - rewrite check_authentication_status_state. done. }
  unfold check_authentication_status, bind, get_state.
  destruct (negb (truthy (headers request' !! "X-Client-ID")));
    [reflexivity|]. cbn.
  rewrite (bool_decide_ext _ _ (Hdom _)).
  destruct (bool_decide _); reflexivity.
Qed.

End ResolutionAndTools.

Lemma search_drive_files_unauthenticated_witness :
  DriveServer.search_drive_files Examples.python_str Examples.google_up
    (Examples.request_of "carol") "name contains 'report'"
    Examples.two_clients
  = (Ok "Error searching files: No credentials found for client_id: carol",
     Examples.two_clients).
Proof.
  apply (search_drive_files_unauthenticated Examples.python_str
           Examples.google_up (Examples.request_of "carol")
           "name contains 'report'" "carol" Examples.two_clients);
    [reflexivity | discriminate | reflexivity].
Defined.

Lemma search_drive_files_forwards_query_witness :
  DriveServer.network
    (snd (DriveServer.search_drive_files Examples.python_str
            Examples.google_up (Examples.request_of "bob")
            "name contains 'report'" Examples.two_clients))
  = [DriveServer.FilesList "name contains 'report'"].
Proof.
  refine (proj1 (search_drive_files_forwards_query Examples.python_str
                   Examples.google_up (Examples.request_of "bob")
                   "name contains 'report'" "bob" Examples.two_clients
                   (DriveServer.build "drive" "v3"
                      (DriveServer.Credentials_of
                         Examples.record_without_refresh))
                   Examples.two_clients eq_refl _)).
  reflexivity.
Defined.

(** ** Beyond the claims: the tool-calling loop *)

Section LoopEdges.

Import GeminiMCPClient.

Variable World : Type.
Variable Exn : Type.
Variable str : Exn -> string.
Variable ConnectionError : string -> Exn.
Variable _query_model :
  list Content -> option (list Tool) -> World -> Result Exn Response * World.
Variable session_call_tool :
  string -> list (string * string) -> World ->
  Result Exn (list string) * World.
Variable session : bool.
Variable tools : option (list Tool).

Local Abbreviation for_parts :=
  (for_parts World Exn str ConnectionError _query_model session_call_tool
             session tools).
Local Abbreviation while_loop :=
  (while_loop World Exn str ConnectionError _query_model session_call_tool
              session tools).
Local Abbreviation query_run :=
  (query_run World Exn str ConnectionError _query_model session_call_tool
             session tools).
Local Abbreviation query :=
  (query World Exn str ConnectionError _query_model session_call_tool
         session tools).

(** The history [query] starts from. *)
Local Abbreviation asked q := [mkContent "user" [Part_from_text q]].

(** The two turns appended after a tool call. *)
Local Abbreviation tool_turns call name result :=
  [mkContent "model" [call];
   mkContent "user"
     [mkPart None None (Some (mkFunctionResponse name result))]].

Lemma query_run_connected fuel q w response w1 :
  session = true ->
  _query_model (asked q) tools w = (Ok response, w1) ->
  query_run fuel q w =
  match while_loop fuel (asked q) response [] [] w1 with
  | Some (run, w') => Some (Ok run, w')
  | None => None
  end.
Proof.
  intros Hs Hmodel. unfold GeminiMCPClient.query_run.
  rewrite Hs, Hmodel. reflexivity.
Qed.

(** Only the first function call of a response is dispatched: what
    follows it in the same response, text or call, plays no part. *)
Theorem for_parts_first_call_only before call fc rest :
  truthy (text call) = false ->
  function_call call = Some fc ->
  forall contents ftp w,
    for_parts contents (before ++ call :: rest) ftp w
    = for_parts contents (before ++ [call]) ftp w.
Proof.
  intros Htext Hcall.
  induction before as [|part before IH]; intros contents ftp w; cbn.
  - rewrite Htext, Hcall. reflexivity.
  - destruct (truthy (text part)); [apply IH|].
    destruct (function_call part); [reflexivity|apply IH].
Qed.

(** A part that carries a text is taken as text even when it also carries
    a function call: the tool is not called and the text is returned. *)
Theorem query_text_part_hides_call fuel q w response w1 part t :
  session = true ->
  _query_model (asked q) tools w = (Ok response, w1) ->
  first_parts response = [part] ->
  text part = Some t ->
  t <> "" ->
  query (S fuel) q w = Some (Ok t, w1).
Proof.
  intros Hs Hmodel Hparts Htext Ht. apply truthy_str_true in Ht.
  unfold GeminiMCPClient.query.
  rewrite (query_run_connected _ _ _ _ _ Hs Hmodel).
  cbn. rewrite Hparts. cbn. rewrite Htext. cbn. rewrite Ht. cbn.
  unfold join. cbn. reflexivity.
Qed.

(** When the [for] loop returns, it returns the error text of a function
    call among the parts. *)
Lemma for_parts_return ps :
  forall contents ftp w value w',
    for_parts contents ps ftp w = (ForReturn value, w') ->
    exists part fc e,
      In part ps /\ function_call part = Some fc
      /\ value = "Error executing tool " +:+ fc_name fc +:+ ": " +:+ str e.
Proof.
  induction ps as [|part rest IH]; intros contents ftp w value w' Hfor;
    cbn in Hfor; [discriminate|].
  destruct (truthy (text part)).
  { destruct (IH _ _ _ _ _ Hfor) as (p & fc & e & Hin & Hfc & Hv).
    exists p, fc, e. split; [right; exact Hin|]. split; assumption. }
  destruct (function_call part) as [fc|] eqn:Hcall.
  2: { destruct (IH _ _ _ _ _ Hfor) as (p & fc & e & Hin & Hfc & Hv).
       exists p, fc, e. split; [right; exact Hin|]. split; assumption. }
  destruct (negb session).
  { injection Hfor as <- <-.
    exists part, fc, (ConnectionError "Session is not initialized.").
    split; [left; reflexivity|]. split; [exact Hcall|reflexivity]. }
  destruct (session_call_tool _ _ w) as [[result|e] w1].
  2: { injection Hfor as <- <-. exists part, fc, e.
       split; [left; reflexivity|]. split; [exact Hcall|reflexivity]. }
  destruct (_query_model _ _ w1) as [[response|e] w2]; [discriminate|].
  injection Hfor as <- <-. exists part, fc, e.
  split; [left; reflexivity|]. split; [exact Hcall|reflexivity].
Qed.

Lemma while_loop_tool_failed fuel :
  forall contents response ftp seen w run w',
    while_loop fuel contents response ftp seen w = Some (run, w') ->
    exit run = ToolFailed ->
    exists final part fc e,
      last (responses run) = Some final
      /\ In part (first_parts final) /\ function_call part = Some fc
      /\ returned run
         = "Error executing tool " +:+ fc_name fc +:+ ": " +:+ str e.
Proof.
  induction fuel as [|fuel IH]; intros contents response ftp seen w run w'
    Hloop Hexit; [discriminate|].
  rewrite while_loop_S in Hloop.
  destruct (first_parts response) as [|part rest] eqn:Hparts.
  { injection Hloop as <- <-. discriminate. }
  destruct (for_parts contents (part :: rest) ftp w) as [out w1] eqn:Hfor.
  destruct out as [ftp'|ftp' contents' response'|value].
  - injection Hloop as <- <-. discriminate.
  - exact (IH _ _ _ _ _ _ _ Hloop Hexit).
  - injection Hloop as <- <-.
    destruct (for_parts_return _ _ _ _ _ _ Hfor) as (p & fc & e & Hin & Hfc & Hv).
    exists response, p, fc, e. cbn. rewrite last_snoc, Hparts.
    repeat split; assumption.
Qed.

(** The parts that come before the first dispatched call only add their
    texts. *)
Lemma for_parts_before_call before :
  Forall (fun part => dispatched part = false) before ->
  forall contents ps ftp w,
    for_parts contents (before ++ ps) ftp w
    = for_parts contents ps (ftp ++ texts before) w.
Proof.
  induction 1 as [|part before Hpart _ IH]; intros contents ps ftp w; cbn.
  - rewrite app_nil_r. reflexivity.
  - unfold dispatched in Hpart.
    destruct (truthy (text part)); cbn in Hpart |- *.
    + rewrite IH, <- app_assoc. reflexivity.
    + destruct (function_call part); [discriminate|]. apply IH.
Qed.

(** When the tool asked for by the first response fails, [query] returns
    the error text naming that tool and that error, and nothing else: the
    texts that came before the call in the response are dropped. *)
Theorem query_tool_failure_message
    fuel q w response w1 before call fc rest e w2 :
  session = true ->
  _query_model (asked q) tools w = (Ok response, w1) ->
  first_parts response = (before ++ call :: rest)%list ->
  Forall (fun part => dispatched part = false) before ->
  truthy (text call) = false ->
  function_call call = Some fc ->
  session_call_tool (fc_name fc) (fc_args fc) w1 = (Raise e, w2) ->
  query (S fuel) q w
  = Some (Ok ("Error executing tool " +:+ fc_name fc +:+ ": " +:+ str e), w2).
Proof.
  intros Hs Hmodel Hparts Hbefore Htext Hcall Htool.
  assert (Hn : negb session = false) by (rewrite Hs; reflexivity).
  unfold GeminiMCPClient.query.
  rewrite (query_run_connected _ _ _ _ _ Hs Hmodel).
  rewrite while_loop_S, Hparts.
  destruct (before ++ call :: rest)%list as [|p ps] eqn:Heq.
  { destruct before; discriminate. }
  rewrite <- Heq, (for_parts_before_call _ Hbefore). cbn.
  rewrite Htext, Hcall, Hn, Htool. reflexivity.
Qed.

(** When the model request that follows a successful tool call fails,
    [query] does not raise: it returns the failure as an error of that
    tool.  The request was made with the history grown by the model's call
    and the tool's result. *)
Theorem query_model_failure_after_tool_call
    fuel q w response w1 call fc rest result w2 e w3 :
  session = true ->
  _query_model (asked q) tools w = (Ok response, w1) ->
  first_parts response = call :: rest ->
  truthy (text call) = false ->
  function_call call = Some fc ->
  session_call_tool (fc_name fc) (fc_args fc) w1 = (Ok result, w2) ->
  _query_model (asked q ++ tool_turns call (fc_name fc) result)%list tools w2
  = (Raise e, w3) ->
  query (S fuel) q w
  = Some (Ok ("Error executing tool " +:+ fc_name fc +:+ ": " +:+ str e), w3).
Proof.
  intros Hs Hmodel Hparts Htext Hcall Htool Hagain.
  unfold GeminiMCPClient.query.
  rewrite (query_run_connected _ _ _ _ _ Hs Hmodel).
  rewrite while_loop_S, Hparts. cbn.
  rewrite Htext, Hcall, Hs. cbn. rewrite Htool.
  cbn in Hagain. rewrite Hagain. reflexivity.
Qed.

Lemma while_loop_never_ends :
  session = true ->
  (forall contents w, exists response w' call rest,
      _query_model contents tools w = (Ok response, w')
      /\ first_parts response = call :: rest /\ only_function_call call) ->
  (forall name args w, exists result w',
      session_call_tool name args w = (Ok result, w')) ->
  forall fuel contents response call rest ftp seen w,
    first_parts response = call :: rest ->
    only_function_call call ->
    while_loop fuel contents response ftp seen w = None.
Proof.
  intros Hs Hmodel Htool.
  assert (Hn : negb session = false) by (rewrite Hs; reflexivity).
  induction fuel as [|fuel IH];
    intros contents response call rest ftp seen w Hparts [Htext Hcall];
    [reflexivity|].
  rewrite while_loop_S, Hparts. cbn. rewrite Htext.
  destruct (function_call call) as [fc|]; [|congruence].
  rewrite Hn.
  destruct (Htool (fc_name fc) (fc_args fc) w) as (result & w1 & ->).
  match goal with
  | |- context [_query_model ?c tools w1] =>
      destruct (Hmodel c w1) as (r & w2 & call' & rest' & -> & Hparts' & Hcall')
  end.
  exact (IH _ _ _ _ _ _ _ Hparts' Hcall').
Qed.

(** The loop has no bound of its own: against a model whose every answer
    starts with a function call, and a session whose tools always answer,
    [query] does not return, however many iterations it is given. *)
Theorem query_never_returns_when_model_always_calls :
  session = true ->
  (forall contents w, exists response w' call rest,
      _query_model contents tools w = (Ok response, w')
      /\ first_parts response = call :: rest /\ only_function_call call) ->
  (forall name args w, exists result w',
      session_call_tool name args w = (Ok result, w')) ->
  forall fuel q w, query fuel q w = None.
Proof.
  intros Hs Hmodel Htool fuel q w.
  destruct (Hmodel (asked q) w) as (r & w1 & call & rest & Hr & Hparts & Hcall).
  unfold GeminiMCPClient.query.
  rewrite (query_run_connected _ _ _ _ _ Hs Hr).
  rewrite (while_loop_never_ends Hs Hmodel Htool _ _ _ _ _ _ _ _ Hparts Hcall).
  reflexivity.
Qed.

(** A run that ends because a response has no candidate or no part, also
    after tool calls, returns what was gathered until then, joined by
    newlines. *)
Theorem query_returns_joined_texts_on_empty_response fuel q w run w' :
  query_run fuel q w = Some (Ok run, w') ->
  exit run = LoopCondition ->
  query fuel q w = Some (Ok (returned run), w')
  /\ returned run
     = join nl (flat_map (fun r => accumulated_texts (first_parts r))
                         (responses run)).
Proof.
  intros Hrun Hexit.
  split; [unfold GeminiMCPClient.query; rewrite Hrun; reflexivity|].
  unfold GeminiMCPClient.query_run in Hrun.
  destruct (negb session); [discriminate|].
  destruct (_query_model _ _ w) as [[response|e] w1]; [|discriminate].
  destruct (while_loop fuel _ response [] [] w1) as [[run1 w2]|] eqn:Hloop;
    [|discriminate].
  injection Hrun as -> ->.
  destruct (while_loop_joins _ _ _ _ _ _ _ _ _ _ _ _ _ _ _ _ Hloop)
    as (earlier & final & Hresp & Hret & _); [congruence|].
  cbn in Hresp, Hret.
  rewrite Hret, Hresp, flat_map_app. cbn. rewrite app_nil_r. reflexivity.
Qed.

End LoopEdges.

Lemma for_parts_first_call_only_witness :
  GeminiMCPClient.for_parts unit string (fun msg => msg) (fun msg => msg)
    (Examples.scripted_model Examples.silent_script)
    Examples.session_finds_nothing true None
    [] ([] ++ Examples.call_search
           :: [GeminiMCPClient.Part_from_text "ignored"; Examples.call_search])
    [] tt
  = GeminiMCPClient.for_parts unit string (fun msg => msg) (fun msg => msg)
      (Examples.scripted_model Examples.silent_script)
      Examples.session_finds_nothing true None
      [] ([] ++ [Examples.call_search]) [] tt.
Proof.
  apply (for_parts_first_call_only unit string (fun msg => msg)
           (fun msg => msg) (Examples.scripted_model Examples.silent_script)
           Examples.session_finds_nothing true None
           [] Examples.call_search
           (GeminiMCPClient.mkFunctionCall "search_drive_files"
              [("query", "name contains 'report'")])
           [GeminiMCPClient.Part_from_text "ignored"; Examples.call_search]);
    reflexivity.
Defined.

Lemma query_text_part_hides_call_witness :
  GeminiMCPClient.query unit string (fun msg => msg) (fun msg => msg)
    (Examples.scripted_model
       [Examples.answer
          [GeminiMCPClient.mkPart (Some "Searching now.")
             (GeminiMCPClient.function_call Examples.call_search) None]])
    Examples.session_finds_nothing true None 1 "List my reports" tt
  = Some (Ok "Searching now.", tt).
Proof.
  apply (query_text_part_hides_call unit string (fun msg => msg)
           (fun msg => msg)
           (Examples.scripted_model
              [Examples.answer
                 [GeminiMCPClient.mkPart (Some "Searching now.")
                    (GeminiMCPClient.function_call Examples.call_search)
                    None]])
           Examples.session_finds_nothing true None 0 "List my reports" tt
           (Examples.answer
              [GeminiMCPClient.mkPart (Some "Searching now.")
                 (GeminiMCPClient.function_call Examples.call_search) None])
           tt
           (GeminiMCPClient.mkPart (Some "Searching now.")
              (GeminiMCPClient.function_call Examples.call_search) None)
           "Searching now.");
    [reflexivity | reflexivity | reflexivity | reflexivity | discriminate].
Defined.

Lemma query_tool_failure_message_witness :
  GeminiMCPClient.query unit string (fun msg => msg) (fun msg => msg)
    (Examples.scripted_model Examples.chatty_script)
    (fun name args w => (Raise "connection closed", w)) true None
    1 "List my reports" tt
  = Some (Ok "Error executing tool search_drive_files: connection closed", tt).
Proof.
  apply (query_tool_failure_message unit string (fun msg => msg)
           (fun msg => msg)
           (Examples.scripted_model Examples.chatty_script)
           (fun name args w => (Raise "connection closed", w))
           true None 0 "List my reports" tt
           (Examples.answer
              [GeminiMCPClient.Part_from_text "Let me look.";
               Examples.call_search])
           tt [GeminiMCPClient.Part_from_text "Let me look."]
           Examples.call_search
           (GeminiMCPClient.mkFunctionCall "search_drive_files"
              [("query", "name contains 'report'")])
           [] "connection closed" tt);
    try reflexivity.
  repeat constructor.
Defined.

Lemma query_model_failure_after_tool_call_witness :
  GeminiMCPClient.query unit string (fun msg => msg) (fun msg => msg)
    (fun contents tools w =>
       match contents with
       | [_] => (Ok (Examples.answer [Examples.call_search]), w)
       | _ => (Raise "quota exceeded", w)
       end)
    Examples.session_finds_nothing true None 1 "List my reports" tt
  = Some (Ok "Error executing tool search_drive_files: quota exceeded", tt).
Proof.
  apply (query_model_failure_after_tool_call unit string (fun msg => msg)
           (fun msg => msg)
           (fun contents tools w =>
              match contents with
              | [_] => (Ok (Examples.answer [Examples.call_search]), w)
              | _ => (Raise "quota exceeded", w)
              end)
           Examples.session_finds_nothing true None 0 "List my reports" tt
           (Examples.answer [Examples.call_search]) tt Examples.call_search
           (GeminiMCPClient.mkFunctionCall "search_drive_files"
              [("query", "name contains 'report'")])
           [] ["No files found matching your query."] tt
           "quota exceeded" tt);
    reflexivity.
Defined.

Lemma query_never_returns_when_model_always_calls_witness :
  GeminiMCPClient.query unit string (fun msg => msg) (fun msg => msg)
    (fun contents tools w => (Ok (Examples.answer [Examples.call_search]), w))
    Examples.session_finds_nothing true None 1000 "List my reports" tt
  = None.
Proof.
  apply (query_never_returns_when_model_always_calls unit string
           (fun msg => msg) (fun msg => msg)
           (fun contents tools w =>
              (Ok (Examples.answer [Examples.call_search]), w))
           Examples.session_finds_nothing true None).
  - reflexivity.
  - intros contents w.
    exists (Examples.answer [Examples.call_search]), w, Examples.call_search, [].
    split; [reflexivity|]. split; [reflexivity|].
    split; [reflexivity|discriminate].
  - intros name args w.
    exists ["No files found matching your query."], w. reflexivity.
Defined.

Lemma query_returns_joined_texts_on_empty_response_witness :
  GeminiMCPClient.query unit string (fun msg => msg) (fun msg => msg)
    (Examples.scripted_model
       [Examples.answer
          [GeminiMCPClient.Part_from_text "Let me look.";
           Examples.call_search]])
    Examples.session_finds_nothing true None 2 "List my reports" tt
  = Some (Ok "Let me look.", tt).
Proof.
  apply (proj1 (query_returns_joined_texts_on_empty_response unit string
                  (fun msg => msg) (fun msg => msg)
                  (Examples.scripted_model
                     [Examples.answer
                        [GeminiMCPClient.Part_from_text "Let me look.";
                         Examples.call_search]])
                  Examples.session_finds_nothing true None 2
                  "List my reports" tt
                  (GeminiMCPClient.mkRun "Let me look."
                     GeminiMCPClient.LoopCondition
                     [Examples.answer
                        [GeminiMCPClient.Part_from_text "Let me look.";
                         Examples.call_search];
                      GeminiMCPClient.mkResponse []])
                  tt eq_refl eq_refl)).
Defined.

(** ** Beyond the claims: the tool declarations *)

Section ToolDeclarations.

Import ParseTools.

Variable upper : string -> string.

Lemma dict_get_in key d value :
  dict_get key d = Some value -> dict_in key d = true.
Proof.
  unfold dict_in. intros Hget. apply bool_decide_eq_true_2.
  induction d as [|[k v] rest IH]; cbn in Hget |- *; [discriminate|].
  destruct (String.eqb k key) eqn:Hk.
  - apply String.eqb_eq in Hk. subst k. apply list_elem_of_here.
  - apply list_elem_of_further, IH, Hget.
Qed.

Lemma dict_in_get key d :
  dict_in key d = true -> exists value, dict_get key d = Some value.
Proof.
  unfold dict_in. intros Hin. apply bool_decide_eq_true_1 in Hin.
  induction d as [|[k v] rest IH]; cbn in Hin |- *.
  - apply elem_of_nil in Hin. destruct Hin.
  - destruct (String.eqb k key) eqn:Hk; [eauto|].
    apply String.eqb_neq in Hk. apply elem_of_cons in Hin as [Heq|Hin];
      [congruence|exact (IH Hin)].
Qed.

Lemma dict_get_not_in key d : dict_in key d = false -> dict_get key d = None.
Proof.
  intros Hin. destruct (dict_get key d) as [value|] eqn:Hget; [|reflexivity].
  apply dict_get_in in Hget. congruence.
Qed.

Lemma dict_set_fresh key value d :
  key ∉ keys d -> dict_set key value d = (d ++ [(key, value)])%list.
Proof.
  induction d as [|[k v] rest IH]; cbn; intros Hfresh; [reflexivity|].
  apply not_elem_of_cons in Hfresh as [Hne Hfresh].
  destruct (String.eqb k key) eqn:Hk.
  - apply String.eqb_eq in Hk. congruence.
  - rewrite (IH Hfresh). reflexivity.
Qed.

Lemma dict_set_Forall (P : string * JSON -> Prop) key value d :
  (forall k, P (k, value)) -> Forall P d -> Forall P (dict_set key value d).
Proof.
  intros Hvalue. induction 1 as [|[k v] rest Hhead Hrest IH]; cbn.
  - constructor; [apply Hvalue|constructor].
  - destruct (String.eqb k key); constructor;
      [apply Hvalue|exact Hrest|exact Hhead|exact IH].
Qed.

Lemma property_declaration_flat prop_details declared k :
  property_declaration upper prop_details = Ok declared ->
  flat upper (k, declared).
Proof.
  unfold property_declaration, flat.
  destruct (default (JString "STRING") _) as [| | |type| |]; try discriminate.
  intros [= <-]. eauto.
Qed.

Lemma parse_properties_flat items :
  forall acc properties,
    parse_properties upper items acc = Ok properties ->
    Forall (flat upper) acc -> Forall (flat upper) properties.
Proof.
  induction items as [|[prop_name prop_details] rest IH];
    intros acc properties Hparse Hacc; cbn in Hparse.
  - congruence.
  - destruct (property_declaration upper prop_details) as [declared|e] eqn:Hd;
      [|discriminate].
    apply (IH _ _ Hparse). apply dict_set_Forall; [|exact Hacc].
    intros k. exact (property_declaration_flat _ _ k Hd).
Qed.

Lemma parse_properties_keys items :
  forall acc properties,
    parse_properties upper items acc = Ok properties ->
    NoDup (keys acc ++ keys items) ->
    keys properties = (keys acc ++ keys items)%list.
Proof.
  induction items as [|[prop_name prop_details] rest IH];
    intros acc properties Hparse Hnodup; cbn in Hparse |- *.
  - rewrite app_nil_r. congruence.
  - destruct (property_declaration upper prop_details) as [declared|e];
      [|discriminate].
    assert (Hfresh : prop_name ∉ keys acc).
    { apply NoDup_app in Hnodup as (_ & Hdisj & _). intros Hin.
      apply (Hdisj _ Hin). apply list_elem_of_here. }
    rewrite (dict_set_fresh _ _ _ Hfresh) in Hparse.
    rewrite (IH _ _ Hparse); unfold keys; rewrite map_app; cbn;
      rewrite <- app_assoc; [reflexivity|exact Hnodup].
Qed.

Lemma parse_properties_raises items :
  forall acc prop_name prop_details e,
    In (prop_name, prop_details) items ->
    property_declaration upper prop_details = Raise e ->
    exists e', parse_properties upper items acc = Raise e'.
Proof.
  induction items as [|[k v] rest IH]; intros acc prop_name prop_details e
    Hin Hraise; cbn in Hin |- *; [destruct Hin|].
  destruct Hin as [[= -> ->]|Hin].
  - rewrite Hraise. eauto.
  - destruct (property_declaration upper v); [|eauto].
    exact (IH _ _ _ _ Hin Hraise).
Qed.

Lemma parse_each_Forall2 tools :
  forall declarations,
    parse_each upper tools = Ok declarations ->
    Forall2 (fun tool declaration => parse_tool upper tool = Ok declaration)
            tools declarations.
Proof.
  induction tools as [|tool rest IH]; intros declarations Hparse;
    cbn in Hparse.
  - injection Hparse as <-. constructor.
  - destruct (parse_tool upper tool) as [declaration|e] eqn:Htool;
      [|discriminate].
    destruct (parse_each upper rest) as [others|e]; [|discriminate].
    injection Hparse as <-. constructor; [exact Htool|apply IH; reflexivity].
Qed.

Lemma _parse_tools_Forall2 tools declarations :
  _parse_tools upper tools = Ok declarations ->
  Forall2 (fun tool declaration => parse_tool upper tool = Ok declaration)
          (default [] tools) declarations.
Proof.
  destruct tools as [[|tool rest]|]; cbn [_parse_tools default].
  - intros [= <-]. constructor.
  - apply parse_each_Forall2.
  - intros [= <-]. constructor.
Qed.

Lemma parse_each_raises tools tool e :
  In tool tools ->
  parse_tool upper tool = Raise e ->
  exists e', parse_each upper tools = Raise e'.
Proof.
  induction tools as [|first rest IH]; cbn; intros Hin Hraise;
    [destruct Hin|].
  destruct Hin as [->|Hin].
  - rewrite Hraise. eauto.
  - destruct (parse_tool upper first); [|eauto].
    destruct (IH Hin Hraise) as [e' ->]. eauto.
Qed.

(** [parse_tool] when it returns: the parameters it builds. *)
Lemma parse_tool_ok tool declaration :
  parse_tool upper tool = Ok declaration ->
  fd_name declaration = name tool
  /\ fd_description declaration = description tool
  /\ exists properties,
       (match dict_get "properties" (inputSchema tool) with
        | Some (JObject items) =>
            parse_properties upper items [] = Ok properties
        | Some _ => False
        | None => properties = []
        end)
       /\ fd_parameters declaration
          = match dict_get "required" (inputSchema tool) with
            | Some required =>
                [("type", JString "OBJECT");
                 ("properties", JObject properties);
                 ("required", required)]
            | None =>
                [("type", JString "OBJECT");
                 ("properties", JObject properties)]
            end.
Proof.
  unfold parse_tool. set (schema := inputSchema tool).
  assert (Htruthy : forall key,
            match schema with [] => false | _ :: _ => true end
            && dict_in key schema = dict_in key schema).
  { intros key. destruct schema; [reflexivity|apply andb_true_l]. }
  rewrite !Htruthy.
  destruct (dict_in "properties" schema) eqn:Hprops.
  - destruct (dict_in_get _ _ Hprops) as [value Hvalue]. rewrite Hvalue.
    destruct value as [| | | | |items]; try discriminate.
    destruct (parse_properties upper items []) as [properties|e] eqn:Hparse;
      [|discriminate].
    intros [= <-]. cbn. split; [reflexivity|]. split; [reflexivity|].
    exists properties. split; [reflexivity|].
    destruct (dict_in "required" schema) eqn:Hreq.
    + destruct (dict_in_get _ _ Hreq) as [required ->]. reflexivity.
    + rewrite (dict_get_not_in _ _ Hreq). reflexivity.
  - rewrite (dict_get_not_in _ _ Hprops).
    intros [= <-]. cbn. split; [reflexivity|]. split; [reflexivity|].
    exists []. split; [reflexivity|].
    destruct (dict_in "required" schema) eqn:Hreq.
    + destruct (dict_in_get _ _ Hreq) as [required ->]. reflexivity.
    + rewrite (dict_get_not_in _ _ Hreq). reflexivity.
Qed.

(** The translation declares one function per tool, in the order of the
    tools, under the tool's name and description. *)
Theorem _parse_tools_keeps_names tools declarations :
  _parse_tools upper tools = Ok declarations ->
  map fd_name declarations = map name (default [] tools)
  /\ map fd_description declarations = map description (default [] tools).
Proof.
  intros Hparse. apply _parse_tools_Forall2 in Hparse.
  induction Hparse as [|tool declaration rest others Htool _ [IHn IHd]];
    [split; reflexivity|].
  destruct (parse_tool_ok _ _ Htool) as (Hname & Hdesc & _).
  cbn. rewrite Hname, Hdesc, IHn, IHd. split; reflexivity.
Qed.

Lemma Forall2_In_r {A B} (R : A -> B -> Prop) l k y :
  Forall2 R l k -> In y k -> exists x, In x l /\ R x y.
Proof.
  induction 1 as [|x y' l k Hxy _ IH]; cbn; [intros []|].
  intros [->|Hin]; [eauto|].
  destruct (IH Hin) as (x' & Hx' & HR). eauto.
Qed.

(** Every declaration is of type ["OBJECT"], and each of its properties
    holds a [type] string and a [description] and nothing else: whatever
    else the tool's schema said about an argument, nested schemas
    included, is dropped. *)
Theorem _parse_tools_flattens_properties tools declarations declaration :
  _parse_tools upper tools = Ok declarations ->
  In declaration declarations ->
  exists properties,
    dict_get "type" (fd_parameters declaration) = Some (JString "OBJECT")
    /\ dict_get "properties" (fd_parameters declaration)
       = Some (JObject properties)
    /\ Forall (flat upper) properties.
Proof.
  intros Hparse Hin. apply _parse_tools_Forall2 in Hparse.
  destruct (Forall2_In_r _ _ _ _ Hparse Hin) as (tool & _ & Htool).
  destruct (parse_tool_ok _ _ Htool) as (_ & _ & properties & Hprops & ->).
  exists properties.
  split; [destruct (dict_get "required" _); reflexivity|].
  split; [destruct (dict_get "required" _); reflexivity|].
  destruct (dict_get "properties" (inputSchema tool)) as [value|].
  - destruct value as [| | | | |items]; try contradiction.
    apply (parse_properties_flat _ _ _ Hprops). constructor.
  - subst properties. constructor.
Qed.

(** The properties of a declaration are the arguments of the tool's
    schema, under their names and in their order. *)
Theorem _parse_tools_keeps_property_names
    tools declarations i tool declaration items :
  _parse_tools upper tools = Ok declarations ->
  default [] tools !! i = Some tool ->
  declarations !! i = Some declaration ->
  dict_get "properties" (inputSchema tool) = Some (JObject items) ->
  NoDup (keys items) ->
  exists properties,
    dict_get "properties" (fd_parameters declaration)
    = Some (JObject properties)
    /\ keys properties = keys items.
Proof.
  intros Hparse Htool Hdecl Hschema Hnodup.
  apply _parse_tools_Forall2 in Hparse.
  pose proof (Forall2_lookup_lr _ _ _ _ _ _ Hparse Htool Hdecl) as Hok.
  destruct (parse_tool_ok _ _ Hok) as (_ & _ & properties & Hprops & ->).
  rewrite Hschema in Hprops. exists properties.
  split; [destruct (dict_get "required" _); reflexivity|].
  exact (parse_properties_keys _ _ _ Hprops Hnodup).
Qed.

(** The list of required arguments goes through as it is, and a schema
    without one gives a declaration without one. *)
Theorem _parse_tools_passes_required tools declarations i tool declaration :
  _parse_tools upper tools = Ok declarations ->
  default [] tools !! i = Some tool ->
  declarations !! i = Some declaration ->
  dict_get "required" (fd_parameters declaration)
  = dict_get "required" (inputSchema tool).
Proof.
  intros Hparse Htool Hdecl. apply _parse_tools_Forall2 in Hparse.
  pose proof (Forall2_lookup_lr _ _ _ _ _ _ Hparse Htool Hdecl) as Hok.
  destruct (parse_tool_ok _ _ Hok) as (_ & _ & properties & _ & ->).
  destruct (dict_get "required" (inputSchema tool)); reflexivity.
Qed.

(** One argument whose [type] is not a string, in one tool, makes the
    whole translation raise: no tool at all is declared to the model. *)
Theorem _parse_tools_rejects_non_string_type
    tools tool items prop_name details type :
  In tool (default [] tools) ->
  dict_get "properties" (inputSchema tool) = Some (JObject items) ->
  In (prop_name, JObject details) items ->
  dict_get "type" details = Some type ->
  (forall s, type <> JString s) ->
  exists e, _parse_tools upper tools = Raise e.
Proof.
  intros Hin Hschema Hitem Htype Hnot.
  assert (Hprop : exists e,
            property_declaration upper (JObject details) = Raise e).
  { unfold property_declaration. rewrite Htype. cbn.
    destruct type as [| | |s| |]; eauto. destruct (Hnot s eq_refl). }
  destruct Hprop as [e Hprop].
  destruct (parse_properties_raises _ [] _ _ _ Hitem Hprop) as [e' Hprops].
  assert (Htool : parse_tool upper tool = Raise e').
  { unfold parse_tool. rewrite (dict_get_in _ _ _ Hschema), Hschema, Hprops.
    destruct (inputSchema tool); [discriminate|reflexivity]. }
  destruct tools as [[|first rest]|]; cbn [default] in Hin;
    [destruct Hin| |destruct Hin].
  exact (parse_each_raises _ _ _ Hin Htool).
Qed.

End ToolDeclarations.

Lemma _parse_tools_keeps_names_witness :
  map ParseTools.fd_name
    [ParseTools.mkFunctionDeclaration "search_drive_files"
       (Some "Search for files in Google Drive")
       [("type", ParseTools.JString "OBJECT");
        ("properties",
         ParseTools.JObject
           [("query",
             ParseTools.JObject [("type", ParseTools.JString "STRING");
                                 ("description", ParseTools.JString "")])]);
        ("required", ParseTools.JArray [ParseTools.JString "query"])];
     ParseTools.mkFunctionDeclaration "check_authentication_status"
       (Some "Check if a user is authenticated")
       [("type", ParseTools.JString "OBJECT");
        ("properties", ParseTools.JObject [])]]
  = ["search_drive_files"; "check_authentication_status"].
Proof.
  apply (proj1 (_parse_tools_keeps_names ParseTools.ascii_upper
                  (Some [ParseTools.search_drive_files_tool;
                         ParseTools.check_authentication_status_tool])
                  _ eq_refl)).
Defined.

Lemma _parse_tools_flattens_properties_witness :
  exists properties,
    ParseTools.dict_get "type"
      [("type", ParseTools.JString "OBJECT");
       ("properties",
        ParseTools.JObject
          [("target",
            ParseTools.JObject
              [("type", ParseTools.JString "OBJECT");
               ("description", ParseTools.JString "where to")]);
           ("dry_run",
            ParseTools.JObject [("type", ParseTools.JString "STRING");
                                ("description", ParseTools.JString "")])])]
    = Some (ParseTools.JString "OBJECT")
    /\ ParseTools.dict_get "properties"
         [("type", ParseTools.JString "OBJECT");
          ("properties",
           ParseTools.JObject
             [("target",
               ParseTools.JObject
                 [("type", ParseTools.JString "OBJECT");
                  ("description", ParseTools.JString "where to")]);
              ("dry_run",
               ParseTools.JObject [("type", ParseTools.JString "STRING");
                                   ("description", ParseTools.JString "")])])]
       = Some (ParseTools.JObject properties)
    /\ Forall (ParseTools.flat ParseTools.ascii_upper) properties.
Proof.
  apply (_parse_tools_flattens_properties ParseTools.ascii_upper
           (Some [ParseTools.nested_tool])
           [ParseTools.mkFunctionDeclaration "move" None _]
           (ParseTools.mkFunctionDeclaration "move" None _) eq_refl).
  left. reflexivity.
Defined.

Lemma _parse_tools_keeps_property_names_witness :
  exists properties,
    ParseTools.dict_get "properties"
      [("type", ParseTools.JString "OBJECT");
       ("properties",
        ParseTools.JObject
          [("target",
            ParseTools.JObject
              [("type", ParseTools.JString "OBJECT");
               ("description", ParseTools.JString "where to")]);
           ("dry_run",
            ParseTools.JObject [("type", ParseTools.JString "STRING");
                                ("description", ParseTools.JString "")])])]
    = Some (ParseTools.JObject properties)
    /\ ParseTools.keys properties = ["target"; "dry_run"].
Proof.
  refine (_parse_tools_keeps_property_names ParseTools.ascii_upper
            (Some [ParseTools.nested_tool])
            [ParseTools.mkFunctionDeclaration "move" None _]
            0%nat ParseTools.nested_tool
            (ParseTools.mkFunctionDeclaration "move" None _)
            _ eq_refl eq_refl eq_refl eq_refl _).
  compute_done.
Defined.

Lemma _parse_tools_passes_required_witness :
  ParseTools.dict_get "required"
    [("type", ParseTools.JString "OBJECT");
     ("properties",
      ParseTools.JObject
        [("query",
          ParseTools.JObject [("type", ParseTools.JString "STRING");
                              ("description", ParseTools.JString "")])]);
     ("required", ParseTools.JArray [ParseTools.JString "query"])]
  = Some (ParseTools.JArray [ParseTools.JString "query"]).
Proof.
  apply (_parse_tools_passes_required ParseTools.ascii_upper
           (Some [ParseTools.search_drive_files_tool])
           [ParseTools.mkFunctionDeclaration "search_drive_files"
              (Some "Search for files in Google Drive") _]
           0%nat ParseTools.search_drive_files_tool
           (ParseTools.mkFunctionDeclaration "search_drive_files"
              (Some "Search for files in Google Drive") _)
           eq_refl eq_refl eq_refl).
Defined.

Lemma _parse_tools_rejects_non_string_type_witness :
  exists e,
    ParseTools._parse_tools ParseTools.ascii_upper
      (Some [ParseTools.search_drive_files_tool; ParseTools.union_typed_tool])
    = Raise e.
Proof.
  apply (_parse_tools_rejects_non_string_type ParseTools.ascii_upper
           (Some [ParseTools.search_drive_files_tool;
                  ParseTools.union_typed_tool])
           ParseTools.union_typed_tool
           [("name",
             ParseTools.JObject
               [("type", ParseTools.JArray [ParseTools.JString "string";
                                            ParseTools.JString "null"])])]
           "name"
           [("type", ParseTools.JArray [ParseTools.JString "string";
                                        ParseTools.JString "null"])]
           (ParseTools.JArray [ParseTools.JString "string";
                               ParseTools.JString "null"])).
  - right. left. reflexivity.
  - reflexivity.
  - left. reflexivity.
  - reflexivity.
  - discriminate.
Defined.

(** ** Beyond the claims: connecting and logging in *)

Section Connecting.

Import MCPClient.

Variable World : Type.
Variable rt : Runtime World.

Local Abbreviation connect_to_server := (connect_to_server World rt).
Local Abbreviation print_tools := (print_tools World).
Local Abbreviation check_status := (check_status World rt).
Local Abbreviation wait_until_authenticated :=
  (wait_until_authenticated World rt).
Local Abbreviation authenticate_with_mcp_server :=
  (authenticate_with_mcp_server World rt).

Lemma print_tools_out tools (p : Process World) :
  exists lines,
    print_tools tools p
    = Some (Ok tt, mkProcess World (self World p) (world World p)
                             (out World p ++ lines)).
Proof.
  revert p. induction tools as [|tool rest IH]; intros p; cbn.
  - exists []. rewrite app_nil_r. destruct p; reflexivity.
  - unfold bind, print, emit. cbn.
    match goal with
    | |- context [print_tools rest ?q] => destruct (IH q) as [lines ->]
    end.
    cbn. eexists. rewrite <- !app_assoc. reflexivity.
Qed.

(** Once the path is accepted, [connect_to_server] opens the transport
    first; it keeps [client_id], and sets [server_url] for a URL only. *)
Lemma connect_to_server_accepted server_path (p : Process World) :
  endswith server_path ".py" || endswith server_path ".js"
  || _is_url World rt server_path = true ->
  let s := self World p in
  let transport :=
    if _is_url World rt server_path then
      SseClient (server_path +:+ "/sse")
                (if truthy_str (client_id s) then [("X-Client-ID", client_id s)]
                 else [])
    else
      StdioClient (if endswith server_path ".py" then "python" else "node")
                  [server_path] in
  exists r p' later,
    connect_to_server server_path p = Some (r, p')
    /\ out World p' = (out World p ++ transport :: later)%list
    /\ client_id (self World p') = client_id s
    /\ server_url (self World p')
       = (if _is_url World rt server_path then Some server_path
          else server_url s)
    /\ (r = Ok tt -> session (self World p') = true).
Proof.
  intros Haccepted s transport. subst s transport.
  unfold MCPClient.connect_to_server. rewrite Haccepted. cbn [negb].
  destruct p as [s w o].
  destruct (_is_url World rt server_path);
    unfold bind, call, get_self, set_self; cbn.
  - destruct (sse_client World rt _ _ w) as [[[]|e] w1]; cbn.
    2: { eexists _, _, []. repeat split; discriminate. }
    destruct (client_session World rt w1) as [[[]|e] w2]; cbn.
    2: { eexists _, _, _. rewrite <- app_assoc. repeat split; discriminate. }
    destruct (initialize World rt w2) as [[[]|e] w3]; cbn.
    2: { eexists _, _, _. rewrite <- !app_assoc. repeat split; discriminate. }
    destruct (list_tools World rt w3) as [[tools|e] w4]; cbn.
    2: { eexists _, _, _. rewrite <- !app_assoc. repeat split; discriminate. }
    match goal with
    | |- context [print_tools tools ?q] =>
        destruct (print_tools_out tools q) as [lines ->]
    end.
    cbn. eexists _, _, _. rewrite <- !app_assoc. repeat split.
  - destruct (stdio_client World rt _ _ w) as [[[]|e] w1]; cbn.
    2: { eexists _, _, []. repeat split; discriminate. }
    destruct (client_session World rt w1) as [[[]|e] w2]; cbn.
    2: { eexists _, _, _. rewrite <- app_assoc. repeat split; discriminate. }
    destruct (initialize World rt w2) as [[[]|e] w3]; cbn.
    2: { eexists _, _, _. rewrite <- !app_assoc. repeat split; discriminate. }
    destruct (list_tools World rt w3) as [[tools|e] w4]; cbn.
    2: { eexists _, _, _. rewrite <- !app_assoc. repeat split; discriminate. }
    match goal with
    | |- context [print_tools tools ?q] =>
        destruct (print_tools_out tools q) as [lines ->]
    end.
    cbn. eexists _, _, _. rewrite <- !app_assoc. repeat split.
Qed.

(** A path that is neither a [.py] file, a [.js] file nor a URL with a
    scheme and a network location is refused before anything is opened:
    the client is as it was. *)
Theorem connect_to_server_rejects_other_paths server_path (p : Process World) :
  endswith server_path ".py" = false ->
  endswith server_path ".js" = false ->
  match urlparse World rt server_path with
  | Ok (scheme, netloc) => scheme = "" \/ netloc = ""
  | Raise _ => True
  end ->
  connect_to_server server_path p
  = Some (Raise (ValueError "Server must be a .py file, .js file, or web URL"),
          p).
Proof.
  intros Hpy Hjs Hurl.
  assert (Hweb : _is_url World rt server_path = false).
  { unfold _is_url.
    destruct (urlparse World rt server_path) as [[scheme netloc]|e];
      [|reflexivity].
    destruct Hurl as [-> | ->]; [reflexivity|apply andb_false_r]. }
  unfold MCPClient.connect_to_server. rewrite Hpy, Hjs, Hweb. reflexivity.
Qed.

(** A URL is reached over SSE at its [/sse] path, with the client's
    identifier in the [X-Client-ID] header, and becomes [server_url]; this
    holds also for a URL that ends in [.py] or [.js]. *)
Theorem connect_to_server_web_sends_client_id server_path (p : Process World) :
  _is_url World rt server_path = true ->
  client_id (self World p) <> "" ->
  exists r p' later,
    connect_to_server server_path p = Some (r, p')
    /\ out World p'
       = (out World p
          ++ SseClient (server_path +:+ "/sse")
                       [("X-Client-ID", client_id (self World p))]
             :: later)%list
    /\ client_id (self World p') = client_id (self World p)
    /\ server_url (self World p') = Some server_path.
Proof.
  intros Hweb Hcid. apply truthy_str_true in Hcid.
  destruct (connect_to_server_accepted server_path p) as (r & p' & later & H).
  { rewrite Hweb. apply orb_true_r. }
  cbv zeta in H. rewrite Hweb, Hcid in H.
  destruct H as (Hrun & Hout & Hid & Hurl & _).
  exists r, p', later. repeat split; assumption.
Qed.

(** A script is started over stdio, with [python] for a [.py] file and
    [node] otherwise; no identifier is handed over and [server_url] stays
    as it was. *)
Theorem connect_to_server_script_sends_no_identity
    server_path (p : Process World) :
  _is_url World rt server_path = false ->
  endswith server_path ".py" || endswith server_path ".js" = true ->
  exists r p' later,
    connect_to_server server_path p = Some (r, p')
    /\ out World p'
       = (out World p
          ++ StdioClient
               (if endswith server_path ".py" then "python" else "node")
               [server_path]
             :: later)%list
    /\ server_url (self World p') = server_url (self World p).
Proof.
  intros Hweb Hscript.
  destruct (connect_to_server_accepted server_path p)
    as (r & p' & later & Hrun & Hout & _ & Hurl & _).
  { rewrite Hscript. reflexivity. }
  rewrite Hweb in Hout, Hurl.
  exists r, p', later. split; [exact Hrun|]. split; [exact Hout|exact Hurl].
Qed.

(** [self.session] is set as soon as the session is entered: when the
    handshake that follows fails, [connect_to_server] raises and leaves a
    client that counts as connected. *)
Theorem connect_to_server_failed_handshake_keeps_session
    server_path (p : Process World) w1 w2 e w3 :
  _is_url World rt server_path = true ->
  sse_client World rt (server_path +:+ "/sse")
    (if truthy_str (client_id (self World p))
     then [("X-Client-ID", client_id (self World p))] else [])
    (world World p) = (Ok tt, w1) ->
  client_session World rt w1 = (Ok tt, w2) ->
  initialize World rt w2 = (Raise e, w3) ->
  exists p',
    connect_to_server server_path p = Some (Raise e, p')
    /\ session (self World p') = true.
Proof.
  intros Hweb Hsse Hsession Hinit.
  unfold MCPClient.connect_to_server. rewrite Hweb, orb_true_r. cbn [negb].
  destruct p as [s w o]. cbn in Hsse.
  unfold bind, call, get_self, set_self. cbn.
  rewrite Hsse. cbn. rewrite Hsession. cbn. rewrite Hinit. cbn.
  eexists. split; reflexivity.
Qed.

Lemma check_status_run (p : Process World) :
  check_status p =
  let asked := (out World p ++ [CallTool "check_authentication_status" []])%list in
  match call_tool World rt "check_authentication_status" [] (world World p) with
  | (Ok (answer :: _), w) =>
      Some (Ok answer, mkProcess World (self World p) w asked)
  | (Ok [], w) =>
      Some (Raise (IndexError "list index out of range"),
            mkProcess World (self World p) w asked)
  | (Raise e, w) => Some (Raise e, mkProcess World (self World p) w asked)
  end.
Proof.
  unfold MCPClient.check_status, bind, call.
  destruct (call_tool World rt _ _ (world World p)) as [[[|answer more]|e] w];
    reflexivity.
Qed.

(** The polling loop only adds to what the client did, and leaves the
    client object alone. *)
Lemma wait_until_authenticated_grows fuel :
  forall (p : Process World) r p',
    wait_until_authenticated fuel p = Some (r, p') ->
    self World p' = self World p
    /\ exists more, out World p' = (out World p ++ more)%list.
Proof.
  induction fuel as [|fuel IH]; intros p r p' Hwait; [discriminate|].
  cbn in Hwait. unfold bind, emit in Hwait. cbn in Hwait.
  rewrite check_status_run in Hwait. cbn in Hwait.
  destruct (call_tool World rt _ _ (world World p)) as [[[|answer more]|e] w];
    cbn in Hwait.
  - injection Hwait as <- <-. cbn. split; [reflexivity|].
    rewrite <- app_assoc. eauto.
  - destruct (String.eqb answer "authenticated"); cbn in Hwait.
    + injection Hwait as <- <-. cbn. split; [reflexivity|].
      rewrite <- !app_assoc. eauto.
    + destruct (IH _ _ _ Hwait) as [Hself [later Hout]]. cbn in Hself, Hout.
      split; [exact Hself|]. rewrite Hout, <- !app_assoc. eauto.
  - injection Hwait as <- <-. cbn. split; [reflexivity|].
    rewrite <- app_assoc. eauto.
Qed.

Lemma wait_until_authenticated_never_ends :
  (forall w, exists answer more w',
      call_tool World rt "check_authentication_status" [] w
      = (Ok (answer :: more), w')
      /\ answer <> "authenticated") ->
  forall fuel (p : Process World), wait_until_authenticated fuel p = None.
Proof.
  intros Hnever. induction fuel as [|fuel IH]; intros p; [reflexivity|].
  cbn. unfold bind, emit. cbn. rewrite check_status_run. cbn.
  destruct (Hnever (world World p)) as (answer & more & w' & -> & Hne).
  cbn. apply String.eqb_neq in Hne. rewrite Hne. cbn. apply IH.
Qed.

(** Logging in has no bound of its own: while the server's answer to
    [check_authentication_status] is anything but ["authenticated"], a
    connected client does not come back from
    [authenticate_with_mcp_server], however many polls it is given. *)
Theorem authenticate_never_returns_unless_authenticated :
  (forall w, exists answer more w',
      call_tool World rt "check_authentication_status" [] w
      = (Ok (answer :: more), w')
      /\ answer <> "authenticated") ->
  forall fuel (p : Process World),
    session (self World p) = true ->
    authenticate_with_mcp_server fuel p = None.
Proof.
  intros Hnever fuel p Hsession.
  unfold MCPClient.authenticate_with_mcp_server, bind, get_self.
  rewrite Hsession, check_status_run.
  destruct (Hnever (world World p)) as (answer & more & w' & -> & Hne).
  cbn. apply String.eqb_neq in Hne. rewrite Hne. cbn.
  apply (wait_until_authenticated_never_ends Hnever).
Qed.


End Connecting.

(** ** Beyond the claims: the chat loop *)

Section Chat.

Import MCPClient.

Variable World : Type.
Variable rt : Runtime World.
Variable self_query :
  string -> list ParseTools.Tool -> World ->
  option (Result Exception string * World).

Local Abbreviation authenticate_with_mcp_server :=
  (authenticate_with_mcp_server World rt).
Local Abbreviation chat_loop_while := (chat_loop_while World rt self_query).
Local Abbreviation chat_loop := (chat_loop World rt self_query).

Lemma authenticate_grows fuel (p : Process World) r p' :
  authenticate_with_mcp_server fuel p = Some (r, p') ->
  self World p' = self World p
  /\ exists more, out World p' = (out World p ++ more)%list.
Proof.
  unfold MCPClient.authenticate_with_mcp_server, bind, get_self.
  destruct (session (self World p)).
  - rewrite check_status_run. cbn.
    destruct (call_tool World rt _ _ (world World p))
      as [[[|answer more]|e] w]; cbn.
    + intros [= <- <-]. cbn. eauto.
    + destruct (String.eqb answer "authenticated"); cbn.
      * intros [= <- <-]. cbn. rewrite <- app_assoc. eauto.
      * intros Hwait.
        destruct (wait_until_authenticated_grows _ _ _ _ _ _ Hwait)
          as [Hself [later Hout]].
        cbn in Hself, Hout. split; [exact Hself|].
        rewrite Hout, <- !app_assoc. eauto.
    + intros [= <- <-]. cbn. eauto.
  - cbn. intros [= <- <-]. cbn. eauto.
Qed.

Lemma chat_loop_while_keeps_self fuel :
  forall (p : Process World) r p',
    chat_loop_while fuel p = Some (r, p') -> self World p' = self World p.
Proof.
  induction fuel as [|fuel IH]; intros p r p' Hloop; [discriminate|].
  cbn -[MCPClient.authenticate_with_mcp_server] in Hloop. unfold bind, print, emit, call in Hloop. cbn -[MCPClient.authenticate_with_mcp_server] in Hloop.
  destruct (input World rt "Query: " (world World p)) as [[line|e] w];
    cbn -[MCPClient.authenticate_with_mcp_server] in Hloop; [|injection Hloop as <- <-; reflexivity].
  destruct (String.eqb (lower World rt line) "help"); cbn -[MCPClient.authenticate_with_mcp_server] in Hloop.
  { exact (IH _ _ _ Hloop). }
  destruct (String.eqb (lower World rt line) "quit"
            || String.eqb (lower World rt line) "exit"); cbn -[MCPClient.authenticate_with_mcp_server] in Hloop.
  { injection Hloop as <- <-. reflexivity. }
  destruct (String.eqb (lower World rt line) "login"); cbn -[MCPClient.authenticate_with_mcp_server] in Hloop.
  { match type of Hloop with
    | context [authenticate_with_mcp_server fuel ?q] =>
        destruct (authenticate_with_mcp_server fuel q) as [[[[]|e] q']|]
          eqn:Hauth; [| |discriminate];
        destruct (authenticate_grows _ _ _ _ Hauth) as [Hself _]
    end.
    - rewrite (IH _ _ _ Hloop). exact Hself.
    - injection Hloop as <- <-. exact Hself. }
  unfold session_list_tools, try_except, call_query, bind, get_self, call,
    raise in Hloop. cbn -[MCPClient.authenticate_with_mcp_server] in Hloop.
  destruct (String.eqb (lower World rt line) "tools"); cbn -[MCPClient.authenticate_with_mcp_server] in Hloop.
  { destruct (session (self World p)); cbn -[MCPClient.authenticate_with_mcp_server] in Hloop;
      [|injection Hloop as <- <-; reflexivity].
    destruct (list_tools World rt w) as [[tools|e] w1]; cbn -[MCPClient.authenticate_with_mcp_server] in Hloop;
      [|injection Hloop as <- <-; reflexivity].
    exact (IH _ _ _ Hloop). }
  destruct (session (self World p)); cbn -[MCPClient.authenticate_with_mcp_server] in Hloop;
    [|exact (IH _ _ _ Hloop)].
  destruct (list_tools World rt w) as [[tools|e] w1]; cbn -[MCPClient.authenticate_with_mcp_server] in Hloop;
    [|exact (IH _ _ _ Hloop)].
  destruct (self_query line tools w1) as [[[response|e] w2]|]; cbn -[MCPClient.authenticate_with_mcp_server] in Hloop;
    [exact (IH _ _ _ Hloop)|exact (IH _ _ _ Hloop)|discriminate].
Qed.

(** The client's identity is held for the whole run: connecting keeps
    [client_id], and neither logging in nor the chat loop changes any
    field of the client object. *)
Theorem client_identity_is_stable :
  (forall server_path (p : Process World) r p',
      connect_to_server World rt server_path p = Some (r, p') ->
      client_id (self World p') = client_id (self World p))
  /\ (forall fuel (p : Process World) r p',
        authenticate_with_mcp_server fuel p = Some (r, p') ->
        self World p' = self World p)
  /\ (forall fuel (p : Process World) r p',
        chat_loop fuel p = Some (r, p') -> self World p' = self World p).
Proof.
  split; [|split].
  - intros server_path p r p' Hconnect.
    destruct (endswith server_path ".py" || endswith server_path ".js"
              || _is_url World rt server_path) eqn:Hacc.
    + destruct (connect_to_server_accepted World rt server_path p Hacc)
        as (r' & q & later & Hrun & _ & Hid & _).
      rewrite Hconnect in Hrun. injection Hrun as <- <-. exact Hid.
    + unfold connect_to_server in Hconnect. rewrite Hacc in Hconnect.
      injection Hconnect as <- <-. reflexivity.
  - intros fuel p r p' Hauth. exact (proj1 (authenticate_grows _ _ _ _ Hauth)).
  - intros fuel p r p' Hchat.
    unfold MCPClient.chat_loop, bind, print, emit, get_self in Hchat.
    cbn -[MCPClient.authenticate_with_mcp_server] in Hchat.
    match type of Hchat with
    | context [authenticate_with_mcp_server fuel ?q] =>
        destruct (authenticate_with_mcp_server fuel q) as [[[[]|e] q']|]
          eqn:Hauth; [| |discriminate];
        destruct (authenticate_grows _ _ _ _ Hauth) as [Hself _]
    end.
    + rewrite (chat_loop_while_keeps_self _ _ _ _ Hchat). exact Hself.
    + injection Hchat as <- <-. exact Hself.
Qed.

(** An exception raised while answering a query does not end the chat:
    it is printed after ["Error: "] and the loop goes on to the next
    line. *)
Theorem chat_loop_while_survives_query_error
    fuel (p : Process World) line w1 tools w2 e w3 :
  input World rt "Query: " (world World p) = (Ok line, w1) ->
  lower World rt line <> "help" ->
  lower World rt line <> "quit" ->
  lower World rt line <> "exit" ->
  lower World rt line <> "login" ->
  lower World rt line <> "tools" ->
  session (self World p) = true ->
  list_tools World rt w1 = (Ok tools, w2) ->
  self_query line tools w2 = Some (Raise e, w3) ->
  chat_loop_while (S fuel) p
  = chat_loop_while fuel
      (mkProcess World (self World p) w3
         (out World p
          ++ [Print ""; Input "Query: "; ListTools; Query line tools;
              Print ("Error: " +:+ str e)])).
Proof.
  intros Hinput Hhelp Hquit Hexit Hlogin Htools Hsession Hlist Hquery.
  apply String.eqb_neq in Hhelp, Hquit, Hexit, Hlogin, Htools.
  cbn. unfold bind, print, emit, call. cbn. rewrite Hinput. cbn.
  rewrite Hhelp, Hquit, Hexit, Hlogin, Htools. cbn.
  unfold session_list_tools, try_except, call_query, bind, get_self, call.
  cbn. rewrite Hsession. cbn. rewrite Hlist. cbn. rewrite Hquery. cbn.
  rewrite <- !app_assoc. reflexivity.
Qed.

(** The [tools] command has no such net: when listing the tools fails,
    the exception leaves the chat loop. *)
Theorem chat_loop_while_tools_failure_ends
    fuel (p : Process World) line w1 e w2 :
  input World rt "Query: " (world World p) = (Ok line, w1) ->
  lower World rt line = "tools" ->
  session (self World p) = true ->
  list_tools World rt w1 = (Raise e, w2) ->
  chat_loop_while (S fuel) p
  = Some (Raise e,
          mkProcess World (self World p) w2
            (out World p ++ [Print ""; Input "Query: "; ListTools])).
Proof.
  intros Hinput Htools Hsession Hlist.
  cbn. unfold bind, print, emit, call. cbn. rewrite Hinput. cbn.
  rewrite Htools. cbn.
  unfold session_list_tools, bind, get_self, call. cbn.
  rewrite Hsession. cbn. rewrite Hlist. cbn.
  rewrite <- !app_assoc. reflexivity.
Qed.

End Chat.

Lemma connect_to_server_rejects_other_paths_witness :
  MCPClient.connect_to_server nat
    (ClientExamples.runtime ClientExamples.never_authenticated (Ok tt)
       (Ok ClientExamples.both_tools) "quit")
    "server.txt" ClientExamples.fresh
  = Some (Raise (MCPClient.ValueError
                   "Server must be a .py file, .js file, or web URL"),
          ClientExamples.fresh).
Proof.
  apply (connect_to_server_rejects_other_paths nat
           (ClientExamples.runtime ClientExamples.never_authenticated (Ok tt)
              (Ok ClientExamples.both_tools) "quit")
           "server.txt" ClientExamples.fresh);
    [reflexivity | reflexivity | left; reflexivity].
Defined.

Lemma connect_to_server_web_sends_client_id_witness :
  exists r p' later,
    MCPClient.connect_to_server nat
      (ClientExamples.runtime ClientExamples.never_authenticated (Ok tt)
         (Ok ClientExamples.both_tools) "quit")
      "http://localhost:8081/server.py" ClientExamples.fresh
    = Some (r, p')
    /\ MCPClient.out nat p'
       = ([] ++ MCPClient.SseClient "http://localhost:8081/server.py/sse"
                  [("X-Client-ID", "client-1")]
             :: later)%list
    /\ MCPClient.client_id (MCPClient.self nat p') = "client-1"
    /\ MCPClient.server_url (MCPClient.self nat p')
       = Some "http://localhost:8081/server.py".
Proof.
  apply (connect_to_server_web_sends_client_id nat
           (ClientExamples.runtime ClientExamples.never_authenticated (Ok tt)
              (Ok ClientExamples.both_tools) "quit")
           "http://localhost:8081/server.py" ClientExamples.fresh);
    [reflexivity | discriminate].
Defined.

Lemma connect_to_server_script_sends_no_identity_witness :
  exists r p' later,
    MCPClient.connect_to_server nat
      (ClientExamples.runtime ClientExamples.never_authenticated (Ok tt)
         (Ok ClientExamples.both_tools) "quit")
      "server.js" ClientExamples.fresh
    = Some (r, p')
    /\ MCPClient.out nat p'
       = ([] ++ MCPClient.StdioClient "node" ["server.js"] :: later)%list
    /\ MCPClient.server_url (MCPClient.self nat p') = None.
Proof.
  apply (connect_to_server_script_sends_no_identity nat
           (ClientExamples.runtime ClientExamples.never_authenticated (Ok tt)
              (Ok ClientExamples.both_tools) "quit")
           "server.js" ClientExamples.fresh);
    reflexivity.
Defined.

Lemma connect_to_server_failed_handshake_keeps_session_witness :
  exists p',
    MCPClient.connect_to_server nat
      (ClientExamples.runtime ClientExamples.never_authenticated
         (Raise (MCPClient.LibraryError "handshake refused"))
         (Ok ClientExamples.both_tools) "quit")
      "http://localhost:8081" ClientExamples.fresh
    = Some (Raise (MCPClient.LibraryError "handshake refused"), p')
    /\ MCPClient.session (MCPClient.self nat p') = true.
Proof.
  apply (connect_to_server_failed_handshake_keeps_session nat
           (ClientExamples.runtime ClientExamples.never_authenticated
              (Raise (MCPClient.LibraryError "handshake refused"))
              (Ok ClientExamples.both_tools) "quit")
           "http://localhost:8081" ClientExamples.fresh 0%nat 0%nat
           (MCPClient.LibraryError "handshake refused") 0%nat);
    reflexivity.
Defined.

Lemma authenticate_never_returns_unless_authenticated_witness :
  MCPClient.authenticate_with_mcp_server nat
    (ClientExamples.runtime ClientExamples.never_authenticated (Ok tt)
       (Ok ClientExamples.both_tools) "quit")
    1000 ClientExamples.connected
  = None.
Proof.
  apply (authenticate_never_returns_unless_authenticated nat
           (ClientExamples.runtime ClientExamples.never_authenticated (Ok tt)
              (Ok ClientExamples.both_tools) "quit")).
  - intros w. exists "not authenticated", [], (S w).
    split; [reflexivity|discriminate].
  - reflexivity.
Defined.


Lemma chat_loop_while_survives_query_error_witness :
  MCPClient.chat_loop_while nat
    (ClientExamples.runtime ClientExamples.never_authenticated (Ok tt)
       (Ok ClientExamples.both_tools) "List my reports")
    ClientExamples.failing_query 3 ClientExamples.connected
  = MCPClient.chat_loop_while nat
      (ClientExamples.runtime ClientExamples.never_authenticated (Ok tt)
         (Ok ClientExamples.both_tools) "List my reports")
      ClientExamples.failing_query 2
      (MCPClient.mkProcess nat
         (MCPClient.self nat ClientExamples.connected) 0%nat
         ([] ++ [MCPClient.Print ""; MCPClient.Input "Query: ";
                 MCPClient.ListTools;
                 MCPClient.Query "List my reports" ClientExamples.both_tools;
                 MCPClient.Print "Error: model unavailable"])).
Proof.
  apply (chat_loop_while_survives_query_error nat
           (ClientExamples.runtime ClientExamples.never_authenticated (Ok tt)
              (Ok ClientExamples.both_tools) "List my reports")
           ClientExamples.failing_query 2 ClientExamples.connected
           "List my reports" 0%nat ClientExamples.both_tools 0%nat
           (MCPClient.LibraryError "model unavailable") 0%nat);
    (reflexivity || discriminate).
Defined.

Lemma chat_loop_while_tools_failure_ends_witness :
  MCPClient.chat_loop_while nat
    (ClientExamples.runtime ClientExamples.never_authenticated (Ok tt)
       (Raise (MCPClient.LibraryError "connection closed")) "tools")
    ClientExamples.failing_query 3 ClientExamples.connected
  = Some (Raise (MCPClient.LibraryError "connection closed"),
          MCPClient.mkProcess nat
            (MCPClient.self nat ClientExamples.connected) 0%nat
            ([] ++ [MCPClient.Print ""; MCPClient.Input "Query: ";
                    MCPClient.ListTools])).
Proof.
  apply (chat_loop_while_tools_failure_ends nat
           (ClientExamples.runtime ClientExamples.never_authenticated (Ok tt)
              (Raise (MCPClient.LibraryError "connection closed")) "tools")
           ClientExamples.failing_query 2 ClientExamples.connected
           "tools" 0%nat (MCPClient.LibraryError "connection closed") 0%nat);
    reflexivity.
Defined.
